(** * tour_scraper: the extraction core of [streamlit_app.py]

    A shallow embedding of [TourScraper.clean_text],
    [TourScraper.parse_itinerary_description],
    [TourScraper.parse_itinerary_days] and the part of
    [TourScraper.scrape_tour_info] that follows the page fetch, together
    with the pieces of the Python runtime and of BeautifulSoup they call. *)

From Stdlib Require Import List NArith PeanoNat Bool String Ascii Lia Wf_nat.
Import ListNotations.

Local Set Warnings "-register-all".
Local Open Scope N_scope.
Local Open Scope list_scope.

(* ================================================================== *)
(** ** Python [str]: a sequence of Unicode code points *)

Module Py.

Definition char := N.
Definition str := list char.

(** An ASCII literal seen as a [str]. *)
Definition lit (s : string) : str := map N_of_ascii (list_ascii_of_string s).

(** [Py_UNICODE_ISSPACE]: the code points [str.strip] removes and the
    class [\s] of [re] on [str] patterns. *)
Definition isspace (c : char) : bool :=
  ((0x09 <=? c) && (c <=? 0x0D)) || ((0x1C <=? c) && (c <=? 0x20))
  || (c =? 0x85) || (c =? 0xA0) || (c =? 0x1680)
  || ((0x2000 <=? c) && (c <=? 0x200A))
  || (c =? 0x2028) || (c =? 0x2029) || (c =? 0x202F)
  || (c =? 0x205F) || (c =? 0x3000).

Fixpoint lstrip (s : str) : str :=
  match s with
  | c :: s' => if isspace c then lstrip s' else s
  | [] => []
  end.

Definition rstrip (s : str) : str := rev (lstrip (rev s)).

(** [s.strip()] *)
Definition strip (s : str) : str := rstrip (lstrip s).

(** [s.startswith(p)] *)
Fixpoint startswith (p s : str) : bool :=
  match p, s with
  | [], _ => true
  | a :: p', b :: s' => (a =? b) && startswith p' s'
  | _ :: _, [] => false
  end.

(** The scan of [s.replace(old, new)] for a non-empty [old]: left to
    right, occurrences that do not overlap.  [skip] counts the code
    points of a matched occurrence that are still to be passed over. *)
Fixpoint replace_scan (old new : str) (skip : nat) (s : str) : str :=
  match s with
  | [] => []
  | c :: s' =>
      match skip with
      | S k => replace_scan old new k s'
      | O =>
          if startswith old s
          then new ++ replace_scan old new (pred (List.length old)) s'
          else c :: replace_scan old new O s'
      end
  end.

(** [s.replace(old, new)]; an empty [old] matches before every code
    point and at the end. *)
Definition replace (old new s : str) : str :=
  match old with
  | [] => new ++ flat_map (fun c => c :: new) s
  | _ :: _ => replace_scan old new O s
  end.

(** [s.split(sep)] at a separator of one code point. *)
Fixpoint split (sep : char) (s : str) : list str :=
  match s with
  | [] => [[]]
  | c :: s' =>
      if c =? sep then [] :: split sep s'
      else match split sep s' with
           | w :: ws => (c :: w) :: ws
           | [] => [[c]]
           end
  end.

(** [sep.join(l)] *)
Fixpoint join (sep : str) (l : list str) : str :=
  match l with
  | [] => []
  | x :: l' =>
      match l' with
      | [] => x
      | _ :: _ => x ++ sep ++ join sep l'
      end
  end.

(** Truth value of a [str] or of a list: non-empty. *)
Definition truthy {A} (l : list A) : bool :=
  match l with [] => false | _ :: _ => true end.

End Py.

(* ================================================================== *)
(** ** BeautifulSoup: the parsed document and the queries used *)

Module Bs4.

(** A parsed document: tags carrying a name, the value of their
    [class] attribute split into its tokens, and their contents; and
    the text between them.  Strings that [get_text] never reports
    (comments, and the like) are not part of the tree. *)
Inductive node : Type :=
| NavigableString (s : Py.str)
| Tag (name : string) (class_ : list string) (contents : list node).

(** [.descendants]: every node below [n], in document order. *)
Fixpoint descendants (n : node) : list node :=
  match n with
  | NavigableString _ => []
  | Tag _ _ cs => flat_map (fun c => c :: descendants c) cs
  end.

(** A tag [name] whose class tokens include [class_] when one is asked
    for. *)
Definition selects (name : string) (class_ : option string) (n : node) : bool :=
  match n with
  | NavigableString _ => false
  | Tag nm cls _ =>
      String.eqb nm name
      && match class_ with
         | None => true
         | Some c => existsb (String.eqb c) cls
         end
  end.

(** [n.find_all(name, class_=...)] *)
Definition find_all (name : string) (class_ : option string) (n : node) : list node :=
  filter (selects name class_) (descendants n).

(** [n.find(name, class_=...)]: the first result of [find_all], or
    [None]. *)
Definition find (name : string) (class_ : option string) (n : node) : option node :=
  hd_error (find_all name class_ n).

(** The strings of [n], each stripped, the empty ones dropped. *)
Definition stripped_strings (n : node) : list Py.str :=
  flat_map
    (fun d =>
       match d with
       | NavigableString s =>
           let s := Py.strip s in
           if Py.truthy s then [s] else []
       | Tag _ _ _ => []
       end)
    (descendants n).

(** [n.get_text(strip=True)]: the stripped strings joined by the empty
    separator. *)
Definition get_text (n : node) : Py.str := Py.join [] (stripped_strings n).

End Bs4.

(* ================================================================== *)
(** ** [TourScraper] *)

Import Py Bs4.

(** A [day_info] dictionary: the five keys every entry is given. *)
Record DayEntry : Type := mkDay {
  icon : str;
  day : str;
  title : str;
  image : str;
  body : str
}.

(** The dictionary [scrape_tour_info] returns. *)
Record TourRecord : Type := mkTour {
  summary : list str;
  itinerary : list DayEntry
}.

(** A call that returns a value or raises [Exception(msg)]. *)
Inductive outcome (A : Type) : Type :=
| Returns (a : A)
| Raises (msg : str).
Arguments Returns {A} a.
Arguments Raises {A} msg.

(** The [replacements] dictionary of [clean_text], in insertion order. *)
Definition replacements : list (char * str) :=
  [ (0x2013, lit "-");      (* en dash *)
    (0x2014, lit "-");      (* em dash *)
    (0x2019, lit "'");      (* right single quotation mark *)
    (0x2018, lit "'");      (* left single quotation mark *)
    (0x201c, [0x22]);       (* left double quotation mark *)
    (0x201d, [0x22]);       (* right double quotation mark *)
    (0x2026, lit "...") ].  (* horizontal ellipsis *)

(** [TourScraper.clean_text] on a [str]. *)
Definition clean_text (text : str) : str :=
  if negb (truthy text) then text
  else
    fold_left
      (fun text (r : char * str) => replace [fst r] (snd r) text)
      replacements text.

(** [TourScraper.parse_itinerary_description] *)
Definition parse_itinerary_description (soup : node) : list str :=
  match find "div" (Some "ao-clp-custom-tdp-itinerary__description"%string) soup with
  | Some description_elem =>
      let text := get_text description_elem in
      let text := clean_text text in
      let sentences :=
        map strip (filter (fun s => truthy (strip s)) (split 0x2E text)) in
      [join (lit ". ") sentences]
  | None => [[]]
  end.

(** The title text of a day item once the arrow text is taken out and the
    punctuation cleaned (the first lines under [if title_elem:]). *)
Definition title_text_of (title_elem : node) : str :=
  let title_text := get_text title_elem in
  let title_text :=
    match find "div" (Some "ao-common-accordion__arrow"%string) title_elem with
    | Some arrow_elem =>
        let arrow_text := get_text arrow_elem in
        strip (replace arrow_text [] title_text)
    | None => title_text
    end in
  clean_text title_text.

(** The body of a day item (the block under [if content_elem:]); empty
    when the item has no content node. *)
Definition body_text_of (item : node) : str :=
  match find "div" (Some "ao-common-accordion__bottom-content"%string) item with
  | Some content_elem =>
      let paragraphs := find_all "p" None content_elem in
      let body_text :=
        if truthy paragraphs
        then join (lit " ") (map get_text paragraphs)
        else get_text content_elem in
      clean_text body_text
  | None => []
  end.

Section Scraper.

(** The class [\d] of [re] on a [str] pattern: the decimal digits of the
    interpreter's Unicode database. *)
Variable isdecimal : char -> bool.

(** The parser behind [BeautifulSoup(html_content, 'lxml')]: the
    document, or the exception the constructor raises. *)
Variable BeautifulSoup : str -> outcome node.

(** [(\d+):] matched at the head of [s], the digit run greedy with
    backtracking: the captured run and what follows the colon. *)
Fixpoint re_digits_colon (s : str) : option (str * str) :=
  match s with
  | d :: s' =>
      if isdecimal d then
        match re_digits_colon s' with
        | Some (ds, rest) => Some (d :: ds, rest)
        | None =>
            match s' with
            | c :: rest => if c =? 0x3A then Some ([d], rest) else None
            | [] => None
            end
        end
      else None
  | [] => None
  end.

(** [Day (\d+):] matched at the head of [s]. *)
Definition re_day_at (s : str) : option (str * str) :=
  match s with
  | 0x44 :: 0x61 :: 0x79 :: 0x20 :: s' => re_digits_colon s'
  | _ => None
  end.

(** [re.search(r'Day (\d+):', s)]: group 1 of the leftmost match. *)
Fixpoint re_search_day (s : str) : option str :=
  match re_day_at s with
  | Some (ds, _) => Some ds
  | None =>
      match s with
      | _ :: s' => re_search_day s'
      | [] => None
      end
  end.

(** [re.sub(r'^Day \d+:\s*', '', s)]: the pattern can match at the start
    of the string only. *)
Definition re_sub_day_prefix (s : str) : str :=
  match re_day_at s with
  | Some (_, rest) => lstrip rest
  | None => s
  end.

(** One candidate [item] up to the test that ends the loop body: [None]
    when the body runs into [continue]. *)
Definition day_info_of (item : node) : option DayEntry :=
  match find "div" (Some "js-ao-common-accordion__title"%string) item with
  | Some title_elem =>
      let title_text := title_text_of title_elem in
      match re_search_day title_text with
      | Some d =>
          Some (mkDay [] d (re_sub_day_prefix title_text) [] (body_text_of item))
      | None => None
      end
  | None => None
  end.

(** One turn of [for item in day_items], on the list built so far. *)
Definition loop_body (itinerary_items : list DayEntry) (item : node) : list DayEntry :=
  match day_info_of item with
  | Some day_info =>
      if truthy (title day_info) && truthy (body day_info)
      then itinerary_items ++ [day_info]
      else itinerary_items
  | None => itinerary_items
  end.

(** [TourScraper.parse_itinerary_days] *)
Definition parse_itinerary_days (soup : node) : list DayEntry :=
  match find "section" (Some "ao-clp-custom-tdp-itinerary"%string) soup with
  | None => []
  | Some itinerary_section =>
      let day_items :=
        find_all "li" (Some "js-ao-common-accordion"%string) itinerary_section in
      fold_left loop_body day_items []
  end.

(** [TourScraper.scrape_tour_info] from the outcome of [fetch_page] on:
    an exception of the fetch goes to the caller. *)
Definition scrape_tour_info (fetched : outcome str) : outcome TourRecord :=
  match fetched with
  | Raises msg => Raises msg
  | Returns html_content =>
      match BeautifulSoup html_content with
      | Raises msg => Raises msg
      | Returns soup =>
          let summary := parse_itinerary_description soup in
          let itinerary := parse_itinerary_days soup in
          Returns (mkTour summary itinerary)
      end
  end.

End Scraper.

(* ================================================================== *)
(** ** Derived views of the loop and the properties as the text states them *)

(** What one candidate adds to the result: its entry, or nothing. *)
Definition entry_of (isdecimal : char -> bool) (item : node) : list DayEntry :=
  match day_info_of isdecimal item with
  | Some day_info =>
      if truthy (title day_info) && truthy (body day_info) then [day_info] else []
  | None => []
  end.

(** The seven code points [clean_text] is documented to replace. *)
Definition targeted (c : char) : bool :=
  existsb (N.eqb c) [0x2013; 0x2014; 0x2018; 0x2019; 0x201C; 0x201D; 0x2026].

(** The documented replacement of one code point: dashes become a
    hyphen, single quotation marks an apostrophe, double quotation marks
    a straight double quote, the ellipsis three periods; anything else
    stays. *)
Definition ascii_equivalent (c : char) : str :=
  if (c =? 0x2013) || (c =? 0x2014) then lit "-"
  else if (c =? 0x2018) || (c =? 0x2019) then lit "'"
  else if (c =? 0x201C) || (c =? 0x201D) then [0x22]
  else if c =? 0x2026 then lit "..."
  else [c].

(** [s] with its first occurrence of [x] taken out and the later ones
    kept: the removal as the specification words it. *)
Fixpoint remove_first (x s : str) : str :=
  if startswith x s then skipn (List.length x) s
  else match s with
       | [] => []
       | c :: s' => c :: remove_first x s'
       end.

(** [occurrences_removed x s r]: [r] is [s] without the occurrences of
    the non-empty [x] met in a scan from the left, an occurrence being
    passed over whole once it is met. *)
Inductive occurrences_removed (x : str) : str -> str -> Prop :=
| removed_end : occurrences_removed x [] []
| removed_here s r :
    occurrences_removed x s r -> occurrences_removed x (x ++ s) r
| removed_step c s r :
    startswith x (c :: s) = false ->
    occurrences_removed x s r -> occurrences_removed x (c :: s) (c :: r).

(** The nodes directly under [n]. *)
Definition children (n : node) : list node :=
  match n with
  | NavigableString _ => []
  | Tag _ _ cs => cs
  end.

(** The body computed from the paragraphs directly under the content
    node, as the specification words it. *)
Definition body_by_paragraph_children (content_elem : node) : str :=
  let paragraphs := filter (selects "p" None) (children content_elem) in
  clean_text
    (if truthy paragraphs
     then join (lit " ") (map get_text paragraphs)
     else get_text content_elem).

(** The pieces of text of [n]: its strings in document order, each
    trimmed, the ones that trim to nothing left out. *)
Fixpoint text_pieces (n : node) : list str :=
  match n with
  | NavigableString s =>
      match strip s with
      | [] => []
      | c :: t => [c :: t]
      end
  | Tag _ _ cs => flat_map text_pieces cs
  end.

(** The pieces of text of [n] put together with nothing between them. *)
Definition glued_text (n : node) : str := List.concat (text_pieces n).

(** The paragraph tags at [n] and below it, in document order. *)
Fixpoint paragraphs_from (n : node) : list node :=
  match n with
  | NavigableString _ => []
  | Tag name _ cs =>
      (if String.eqb name "p" then [n] else []) ++ flat_map paragraphs_from cs
  end.

(** The paragraph tags below [n], at any depth. *)
Definition paragraphs_below (n : node) : list node :=
  flat_map paragraphs_from (children n).

(** The body as the amended text words it: the glued texts of the
    paragraphs below the content node joined with single spaces, or the
    glued text of the content node when it has no paragraph below it;
    normalized. *)
Definition body_from_glued_paragraphs (content_elem : node) : str :=
  clean_text
    match paragraphs_below content_elem with
    | [] => glued_text content_elem
    | p :: ps => join (lit " ") (map glued_text (p :: ps))
    end.

(** Every string below [n] as it stands, put together: the text of [n]
    before any trimming. *)
Fixpoint all_text (n : node) : str :=
  match n with
  | NavigableString s => s
  | Tag _ _ cs => flat_map all_text cs
  end.

(* ------------------------------------------------------------------ *)
(** *** Sample documents *)

(** A digit table that knows the ASCII digits only. *)
Definition ascii_decimal (c : char) : bool := (0x30 <=? c) && (c <=? 0x39).

Definition text (s : string) : node := NavigableString (lit s).

Definition div (class_ : string) (contents : list node) : node :=
  Tag "div" [class_] contents.

Definition paragraph (s : string) : node := Tag "p" [] [text s].

(** [<li class="js-ao-common-accordion">] with a title node and a content
    node. *)
Definition accordion_item (title_nodes content_nodes : list node) : node :=
  Tag "li" ["js-ao-common-accordion"%string; "ao-common-accordion"%string]
    [ div "js-ao-common-accordion__title" title_nodes;
      div "ao-common-accordion__bottom-content" content_nodes ].

(** An itinerary section that lists [items]. *)
Definition itinerary_of (items : list node) : node :=
  Tag "section" ["ao-clp-custom-tdp-itinerary"%string] [ Tag "ul" [] items ].

(** A page made of that section. *)
Definition page (items : list node) : node :=
  Tag "[document]" [] [ Tag "html" [] [ Tag "body" [] [ itinerary_of items ] ] ].

Definition item_hanoi : node :=
  accordion_item [text "Day 1: Hanoi"] [paragraph " Arrive in Hanoi. "; paragraph "Rest."].

Definition item_halong : node :=
  accordion_item [text "Day 2: Halong Bay"] [paragraph "Cruise the bay."].

Definition page_two_days : node := page [item_hanoi; item_halong].

(** A title that carries the day pattern after other words. *)
Definition item_optional : node :=
  accordion_item [text "Optional Day 3: Cruise"] [paragraph "Sail."].

Definition page_optional : node := page [item_optional].

(** A title node whose arrow glyph also occurs in the title proper. *)
Definition arrow_sample : node := div "ao-common-accordion__arrow" [text ">"].

Definition title_with_arrow : node :=
  div "js-ao-common-accordion__title" [ text "Day 1: Hanoi > Hue"; arrow_sample ].

(** A content node whose only paragraph sits inside a wrapper. *)
Definition content_wrapped : node :=
  div "ao-common-accordion__bottom-content"
    [ text "Intro"; Tag "div" [] [paragraph "Hello"] ].

Definition item_wrapped : node :=
  Tag "li" ["js-ao-common-accordion"%string]
    [ div "js-ao-common-accordion__title" [text "Day 1: Hanoi"]; content_wrapped ].

(** A matching title over a content node without any text. *)
Definition item_no_text : node :=
  accordion_item [text "Day 4: Hue"] [Tag "span" [] [text "   "]].

(** A description container, and a page that has it and no itinerary
    section. *)
Definition description_sample : node :=
  div "ao-clp-custom-tdp-itinerary__description"
    [ text " Visit Hanoi. See the lake. Enjoy. " ].

Definition page_description : node :=
  Tag "[document]" [] [ Tag "main" [] [ description_sample ] ].

(** A page with neither container. *)
Definition page_bare : node :=
  Tag "[document]" [] [ Tag "h1" [] [text "Not found"] ].

(* ================================================================== *)
(** ** The extractors with their failures

    The same statements once more, this time with what Python can raise
    on the way: a method called on [None] and a key missing from a
    dictionary. *)

Module Checked.

Definition bind {A B} (m : outcome A) (k : A -> outcome B) : outcome B :=
  match m with
  | Returns a => k a
  | Raises msg => Raises msg
  end.

Notation "x <- m ;; k" := (bind m (fun x => k))
  (at level 61, m at next level, right associativity).

(** The truth value of an object that may be [None]: a tag and a match
    object are true. *)
Definition truth {A} (obj : option A) : bool :=
  match obj with
  | Some _ => true
  | None => false
  end.

(** A method called on an object that may be [None]. *)
Definition call {A B} (obj : option A) (method : A -> B) : outcome B :=
  match obj with
  | Some x => Returns (method x)
  | None => Raises (lit "AttributeError")
  end.

(** A [dict] with [str] keys, in insertion order. *)
Definition dict : Type := list (string * str).

(** [d[key] = value] *)
Fixpoint setitem (d : dict) (key : string) (value : str) : dict :=
  match d with
  | [] => [(key, value)]
  | (k, v) :: d' =>
      if String.eqb k key then (k, value) :: d'
      else (k, v) :: setitem d' key value
  end.

(** [d[key]] *)
Fixpoint getitem (d : dict) (key : string) : outcome str :=
  match d with
  | [] => Raises (lit "KeyError")
  | (k, v) :: d' => if String.eqb k key then Returns v else getitem d' key
  end.

(** A [for] loop whose body may raise. *)
Fixpoint for_each {A S} (body : S -> A -> outcome S) (l : list A) (s : S)
  : outcome S :=
  match l with
  | [] => Returns s
  | a :: l' => s' <- body s a ;; for_each body l' s'
  end.

(** [TourScraper.parse_itinerary_description] *)
Definition parse_itinerary_description (soup : node) : outcome (list str) :=
  let description_elem :=
    find "div" (Some "ao-clp-custom-tdp-itinerary__description"%string) soup in
  if truth description_elem then
    text <- call description_elem get_text ;;
    let text := clean_text text in
    let sentences :=
      map strip (filter (fun s => truthy (strip s)) (split 0x2E text)) in
    Returns [join (lit ". ") sentences]
  else Returns [[]].

Section Days.

Variable isdecimal : char -> bool.
Variable BeautifulSoup : str -> outcome node.

(** The body of [for item in day_items]; a [continue] gives the list
    back as it was. *)
Definition loop_body (itinerary_items : list dict) (item : node)
  : outcome (list dict) :=
  let day_info : dict := [] in
  let day_info := setitem day_info "icon" [] in
  let day_info := setitem day_info "day" [] in
  let day_info := setitem day_info "title" [] in
  let day_info := setitem day_info "image" [] in
  let day_info := setitem day_info "body" [] in
  let title_elem :=
    find "div" (Some "js-ao-common-accordion__title"%string) item in
  if truth title_elem then
    title_text <- call title_elem get_text ;;
    arrow_elem <- call title_elem
                    (find "div" (Some "ao-common-accordion__arrow"%string)) ;;
    title_text <- (if truth arrow_elem then
                     arrow_text <- call arrow_elem get_text ;;
                     Returns (strip (replace arrow_text [] title_text))
                   else Returns title_text) ;;
    let title_text := clean_text title_text in
    let day_match := re_search_day isdecimal title_text in
    if truth day_match then
      group_1 <- call day_match (fun group_1 => group_1) ;;
      let day_info := setitem day_info "day" group_1 in
      let clean_title := re_sub_day_prefix isdecimal title_text in
      let day_info := setitem day_info "title" clean_title in
      let content_elem :=
        find "div" (Some "ao-common-accordion__bottom-content"%string) item in
      day_info <- (if truth content_elem then
                     paragraphs <- call content_elem (find_all "p" None) ;;
                     body_text <- (if truthy paragraphs
                                   then Returns (join (lit " ")
                                                   (map get_text paragraphs))
                                   else call content_elem get_text) ;;
                     let body_text := clean_text body_text in
                     Returns (setitem day_info "body" body_text)
                   else Returns day_info) ;;
      title_value <- getitem day_info "title" ;;
      if truthy title_value then
        body_value <- getitem day_info "body" ;;
        if truthy body_value
        then Returns (itinerary_items ++ [day_info])
        else Returns itinerary_items
      else Returns itinerary_items
    else Returns itinerary_items
  else Returns itinerary_items.

(** [TourScraper.parse_itinerary_days] *)
Definition parse_itinerary_days (soup : node) : outcome (list dict) :=
  let itinerary_items : list dict := [] in
  let itinerary_section :=
    find "section" (Some "ao-clp-custom-tdp-itinerary"%string) soup in
  if negb (truth itinerary_section) then Returns itinerary_items
  else
    day_items <- call itinerary_section
                   (find_all "li" (Some "js-ao-common-accordion"%string)) ;;
    for_each loop_body day_items itinerary_items.

(** [TourScraper.scrape_tour_info] from the outcome of [fetch_page] on:
    the summary and the itinerary of the result. *)
Definition scrape_tour_info (fetched : outcome str)
  : outcome (list str * list dict) :=
  html_content <- fetched ;;
  soup <- BeautifulSoup html_content ;;
  summary <- parse_itinerary_description soup ;;
  itinerary <- parse_itinerary_days soup ;;
  Returns (summary, itinerary).

End Days.

End Checked.

(** A [DayEntry] as the dictionary it stands for. *)
Definition as_dict (e : DayEntry) : Checked.dict :=
  [ ("icon"%string, icon e); ("day"%string, day e); ("title"%string, title e);
    ("image"%string, image e); ("body"%string, body e) ].

(** A [TourRecord] as the pair of its summary and its dictionaries. *)
Definition as_result (r : TourRecord) : list str * list Checked.dict :=
  (summary r, map as_dict (itinerary r)).

(* ================================================================== *)
(** ** The session: [check_robots_txt], [fetch_page] and the whole of
       [scrape_tour_info] *)

Module TourScraper.

(** The exceptions, as far as the [except] clauses tell them apart; each
    carries its [str(e)]. *)
Inductive exn : Type :=
| RequestException (e : str)   (* [requests.RequestException] and below *)
| Exception (e : str).         (* any other [Exception] *)

Inductive result (A : Type) : Type :=
| Return (a : A)
| Raise (e : exn).
Arguments Return {A} a.
Arguments Raise {A} e.

(** What the code reads of a [requests.Response]. *)
Record Response : Type := mkResponse {
  status_code : N;
  text : str
}.

(** What a run does to the outside, in order. *)
Inductive event : Type :=
| sleep_uniform (a b : N)                (* [time.sleep(random.uniform(a, b))] *)
| session_get (url : str) (timeout : N). (* [self.session.get(url, timeout=...)] *)

Definition is_get (ev : event) : bool :=
  match ev with
  | session_get _ _ => true
  | sleep_uniform _ _ => false
  end.

(** The number of requests a trace holds. *)
Definition requests_sent (trace : list event) : nat :=
  List.length (filter is_get trace).

(** A computation: from the trace so far to its outcome and the trace
    it leaves. *)
Definition M (A : Type) : Type := list event -> result A * list event.

Definition ret {A} (a : A) : M A := fun trace => (Return a, trace).

Definition raise {A} (e : exn) : M A := fun trace => (Raise e, trace).

Definition bind {A B} (m : M A) (k : A -> M B) : M B :=
  fun trace =>
    match m trace with
    | (Return a, trace') => k a trace'
    | (Raise e, trace') => (Raise e, trace')
    end.

(** [try: m except ...: handler]: what [m] did before it raised stays
    done. *)
Definition try_except {A} (m : M A) (handler : exn -> M A) : M A :=
  fun trace =>
    match m trace with
    | (Return a, trace') => (Return a, trace')
    | (Raise e, trace') => handler e trace'
    end.

Definition lift {A} (r : result A) : M A := fun trace => (r, trace).

Notation "x <- m ;; k" := (bind m (fun x => k))
  (at level 61, m at next level, right associativity).

Section Session.

(** The class [\d] and the parser, as for the extractors. *)
Variable isdecimal : char -> bool.
Variable BeautifulSoup : str -> outcome node.

(** [urlparse(url)]: the scheme and the network location, or the
    [ValueError] it raises on a malformed address. *)
Variable urlparse : str -> result (str * str).

(** [urljoin(base, url)] *)
Variable urljoin : str -> str -> str.

(** The message of the [HTTPError] that [raise_for_status] builds. *)
Variable http_error_msg : Response -> str.

(** The outside: the answer to the request number [n] of the run, sent
    to [url] with [timeout]. *)
Variable network : nat -> str -> N -> result Response.

Definition sleep (a b : N) : M unit :=
  fun trace => (Return tt, trace ++ [sleep_uniform a b]).

Definition get (url : str) (timeout : N) : M Response :=
  fun trace =>
    (network (requests_sent trace) url timeout,
     trace ++ [session_get url timeout]).

(** [response.raise_for_status()]: an [HTTPError] on a 4xx or 5xx
    status. *)
Definition raise_for_status (response : Response) : M unit :=
  if (400 <=? status_code response) && (status_code response <? 600)
  then raise (RequestException (http_error_msg response))
  else ret tt.

(** [TourScraper.check_robots_txt] *)
Definition check_robots_txt (base_url : str) : M bool :=
  try_except
    (let robots_url := urljoin base_url (lit "/robots.txt") in
     response <- get robots_url 10 ;;
     _ <- (if status_code response =? 200 then sleep 1 3 else ret tt) ;;
     ret true)
    (fun _ => ret true).

(** [TourScraper.fetch_page] *)
Definition fetch_page (url : str) : M str :=
  try_except
    (_ <- sleep 1 2 ;;
     response <- get url 30 ;;
     _ <- raise_for_status response ;;
     ret (text response))
    (fun e =>
       match e with
       | RequestException e => raise (Exception (lit "Failed to fetch page: " ++ e))
       | Exception _ => raise e
       end).

(** [TourScraper.scrape_tour_info] *)
Definition scrape_tour_info (url : str) : M TourRecord :=
  parsed_url <- lift (urlparse url) ;;
  let base_url := fst parsed_url ++ lit "://" ++ snd parsed_url in
  _ <- check_robots_txt base_url ;;
  html_content <- fetch_page url ;;
  soup <- lift (match BeautifulSoup html_content with
                | Returns soup => Return soup
                | Raises msg => Raise (Exception msg)
                end) ;;
  let summary := parse_itinerary_description soup in
  let itinerary := parse_itinerary_days isdecimal soup in
  ret (mkTour summary itinerary).

End Session.

(** How [fetch_page] ends, as the extractors' [outcome]. *)
Definition to_outcome {A} (r : result A) : outcome A :=
  match r with
  | Return a => Returns a
  | Raise (RequestException e) => Raises e
  | Raise (Exception e) => Raises e
  end.

End TourScraper.

(* ================================================================== *)
(** ** What [main] computes from the address and the result *)

Module App.

(** A subscript that may raise [IndexError]: [None] when it does. *)
Definition item {A} (l : list A) (i : nat) : option A := nth_error l i.

(** [l[-1]] *)
Definition last_item {A} (l : list A) : option A := hd_error (rev l).

(** The test that shows the warning under the input box. *)
Definition warns (url : str) : bool :=
  truthy url && negb (startswith (lit "https://tours.flightcentre.com.au/") url).

(** The "Days Found" metric. *)
Definition days_found (result : TourRecord) : nat :=
  List.length (itinerary result).

(** The "Summary Length" metric:
    [len(result['summary'][0]) if result['summary'][0] else 0]. *)
Definition summary_length (result : TourRecord) : option nat :=
  match item (summary result) 0 with
  | Some s =>
      if truthy s
      then match item (summary result) 0 with
           | Some s' => Some (List.length s')
           | None => None
           end
      else Some O
  | None => None
  end.

(** The name of the download:
    [f"tour_data_{url.split('/')[-1]}.json"]. *)
Definition file_name (url : str) : option str :=
  match last_item (split 0x2F url) with
  | Some stem => Some (lit "tour_data_" ++ stem ++ lit ".json")
  | None => None
  end.

(** The heading of a day in the preview:
    [f"Day {day['day']}: {day['title']}"]. *)
Definition expander_label (d : DayEntry) : str :=
  lit "Day " ++ day d ++ lit ": " ++ title d.

End App.

(* ------------------------------------------------------------------ *)
(** *** Strings without whitespace at their ends *)

(** [s] does not start with whitespace. *)
Definition starts_clean (s : str) : bool :=
  match s with
  | c :: _ => negb (isspace c)
  | [] => true
  end.

(** [s] neither starts nor ends with whitespace. *)
Definition trimmed (s : str) : bool := starts_clean s && starts_clean (rev s).

(** [x] occurs in [s]. *)
Definition occurs_in (x s : str) : Prop := exists pre post, s = pre ++ x ++ post.

(* ------------------------------------------------------------------ *)
(** *** More sample data *)


(** A parser that takes every page for the two-day page. *)
Definition parser_sample (html_content : str) : outcome node :=
  Returns page_two_days.

(** The entry of [item_hanoi]. *)
Definition entry_hanoi : DayEntry :=
  mkDay [] (lit "1") (lit "Hanoi") [] (lit "Arrive in Hanoi. Rest.").



(** A description container that holds a summary already extracted. *)
Definition description_resummary : node :=
  div "ao-clp-custom-tdp-itinerary__description"
    [ text "Visit Hanoi. See the lake. Enjoy" ].

Definition page_resummary : node :=
  Tag "[document]" [] [ description_resummary ].

(** What the two-day page gives. *)
Definition record_two_days : TourRecord :=
  mkTour (parse_itinerary_description page_two_days)
    (parse_itinerary_days ascii_decimal page_two_days).

(** An address of the site, and an address parser that rejects what it
    is given. *)
Definition url_sample : str := lit "https://tours.flightcentre.com.au/t/1842".

Definition urlparse_rejects (url : str) : TourScraper.result (str * str) :=
  TourScraper.Raise (TourScraper.Exception (lit "Invalid IPv6 URL")).

(** A day number of two digits. *)
Definition item_day12 : node :=
  accordion_item [text "Day 12: Big day"] [paragraph "Party."].

(** A paragraph whose text is cut by a tag inside it. *)
Definition paragraph_inline : node :=
  Tag "p" [] [text "Arrive "; Tag "b" [] [text "in"]; text " Hue."].

Definition item_inline : node :=
  accordion_item [text "Day 6: Hue"] [paragraph_inline].

Definition urlparse_sample (url : str) : TourScraper.result (str * str) :=
  TourScraper.Return (lit "https", lit "tours.flightcentre.com.au").

Definition urljoin_sample (base url : str) : str := base ++ url.

Definition http_error_msg_sample (r : TourScraper.Response) : str :=
  lit "404 Client Error: Not Found".

(** A server without [robots.txt] that serves the page. *)
Definition network_sample (n : nat) (url : str) (timeout : N)
  : TourScraper.result TourScraper.Response :=
  match n with
  | O => TourScraper.Return (TourScraper.mkResponse 404 [])
  | S _ => TourScraper.Return (TourScraper.mkResponse 200 (lit "<html>"))
  end.

(** A server that is out of reach. *)
Definition network_down (n : nat) (url : str) (timeout : N)
  : TourScraper.result TourScraper.Response :=
  TourScraper.Raise (TourScraper.RequestException (lit "Connection refused")).

(* ================================================================== *)
(** ** Facts about the [str] methods *)

Lemma startswith_app (p s : str) : startswith p (p ++ s) = true.
Proof.
  induction p as [|a p IH]; simpl; [reflexivity|].
  now rewrite N.eqb_refl, IH.
Qed.

Lemma startswith_inv (p s : str) :
  startswith p s = true -> exists t, s = p ++ t.
Proof.
  revert s; induction p as [|a p IH]; intros s H.
  - now exists s.
  - destruct s as [|b s]; simpl in H; [discriminate|].
    apply andb_true_iff in H as [Hab Hps].
    apply N.eqb_eq in Hab; subst b.
    destruct (IH _ Hps) as [t ->]. now exists t.
Qed.

Lemma replace_scan_skip (old new p s : str) :
  replace_scan old new (List.length p) (p ++ s) = replace_scan old new O s.
Proof.
  induction p as [|a p IH]; simpl; [|exact IH].
  destruct s; reflexivity.
Qed.

(** An occurrence at the head is replaced whole, and the scan resumes
    behind it. *)
Lemma replace_occurrence (old new s : str) :
  old <> [] -> replace old new (old ++ s) = new ++ replace old new s.
Proof.
  destruct old as [|a o]; [congruence|intros _].
  unfold replace.
  change ((a :: o) ++ s) with (a :: (o ++ s)).
  cbn [replace_scan].
  change (a :: o ++ s) with ((a :: o) ++ s).
  rewrite startswith_app. cbn [List.length pred].
  now rewrite replace_scan_skip.
Qed.

(** A code point that starts no occurrence is kept. *)
Lemma replace_other (old new : str) (c : char) (s : str) :
  startswith old (c :: s) = false ->
  replace old new (c :: s) = c :: replace old new s.
Proof.
  destruct old as [|a o]; [discriminate|intros H].
  unfold replace. cbn [replace_scan]. now rewrite H.
Qed.

Lemma replace_nil (old new : str) : old <> [] -> replace old new [] = [].
Proof. destruct old; [congruence|reflexivity]. Qed.

(** Replacing a single code point is a substitution position by
    position. *)
Lemma replace_single (c : char) (new s : str) :
  replace [c] new s = flat_map (fun x => if x =? c then new else [x]) s.
Proof.
  unfold replace.
  induction s as [|x s IH]; [reflexivity|].
  cbn [replace_scan startswith List.length pred flat_map].
  rewrite andb_true_r, (N.eqb_sym c x).
  destruct (x =? c); now rewrite IH.
Qed.

Lemma replace_single_app (c : char) (new s t : str) :
  replace [c] new (s ++ t) = replace [c] new s ++ replace [c] new t.
Proof. rewrite !replace_single. apply flat_map_app. Qed.

Lemma lstrip_incl (s : str) (c : char) : In c (lstrip s) -> In c s.
Proof.
  induction s as [|a s IH]; simpl; [tauto|].
  destruct (isspace a); simpl; intuition.
Qed.

Lemma strip_incl (s : str) (c : char) : In c (strip s) -> In c s.
Proof.
  unfold strip, rstrip. intros H.
  apply in_rev, lstrip_incl in H. apply in_rev in H.
  now apply lstrip_incl.
Qed.

Lemma split_no_sep (sep : char) (s : str) :
  Forall (fun w => ~ In sep w) (split sep s).
Proof.
  induction s as [|c s IH]; simpl.
  - constructor; [tauto|constructor].
  - destruct (N.eqb_spec c sep) as [->|Hne].
    + constructor; [tauto|exact IH].
    + destruct (split sep s) as [|w ws].
      * constructor; [|constructor]. simpl. intuition congruence.
      * inversion IH; subst. constructor; [|assumption].
        simpl. intuition congruence.
Qed.

Lemma join_nonempty (sep x : str) (l : list str) :
  x <> [] -> join sep (x :: l) <> [].
Proof.
  intros Hx. simpl. destruct l; [assumption|].
  destruct x; [congruence|discriminate].
Qed.

(** The last code point of a joined list is the last code point of its
    last element. *)
Lemma join_not_ending (sep : str) (c : char) (l : list str) :
  Forall (fun w => w <> [] /\ ~ In c w) l ->
  forall p, join sep l <> p ++ [c].
Proof.
  induction l as [|x l IH]; intros HF p.
  - simpl. destruct p; discriminate.
  - inversion HF as [|? ? [Hx Hc] HF']; subst.
    destruct l as [|y l].
    + simpl. intros ->. apply Hc, in_or_app. right. now left.
    + change (join sep (x :: y :: l)) with (x ++ sep ++ join sep (y :: l)).
      intros E.
      assert (Hy : join sep (y :: l) <> []).
      { inversion HF' as [|? ? [Hy _] _]; subst. now apply join_nonempty. }
      destruct (exists_last Hy) as [q [d Hq]].
      rewrite Hq, !app_assoc in E.
      apply app_inj_tail in E as [_ ->].
      exact (IH HF' q Hq).
Qed.

(* ================================================================== *)
(** ** The text normalizer *)

Lemma clean_text_unfold (text : str) :
  clean_text text =
  fold_left (fun text (r : char * str) => replace [fst r] (snd r) text)
    replacements text.
Proof. destruct text; reflexivity. Qed.

Lemma clean_text_app (s t : str) :
  clean_text (s ++ t) = clean_text s ++ clean_text t.
Proof.
  rewrite !clean_text_unfold. unfold replacements.
  cbn [fold_left fst snd].
  now rewrite !replace_single_app.
Qed.

Lemma clean_text_single (c : char) : clean_text [c] = ascii_equivalent c.
Proof.
  rewrite clean_text_unfold. unfold replacements, ascii_equivalent.
  cbn [fold_left fst snd]. rewrite !replace_single.
  repeat
    (cbn [flat_map app orb];
     match goal with
     | |- context [c =? ?k] =>
         destruct (N.eqb_spec c k); [subst c; vm_compute; reflexivity|]
     end).
  reflexivity.
Qed.

(** [clean_text] substitutes position by position. *)
Lemma clean_text_flat_map (text : str) :
  clean_text text = flat_map ascii_equivalent text.
Proof.
  induction text as [|c s IH]; [reflexivity|].
  change (c :: s) with ([c] ++ s).
  rewrite clean_text_app, clean_text_single, IH. reflexivity.
Qed.

Lemma ascii_equivalent_untargeted (c : char) :
  targeted c = false -> ascii_equivalent c = [c].
Proof.
  unfold targeted, ascii_equivalent. cbn [existsb].
  intros H. repeat (apply orb_false_iff in H as [? H]).
  repeat match goal with E : (c =? _) = false |- _ => rewrite E; clear E end.
  reflexivity.
Qed.

Lemma ascii_equivalent_clean (c : char) :
  Forall (fun d => targeted d = false) (ascii_equivalent c).
Proof.
  unfold ascii_equivalent.
  repeat
    (cbn [orb];
     match goal with
     | |- context [c =? ?k] =>
         destruct (N.eqb_spec c k);
         [subst c; vm_compute; repeat constructor|]
     end).
  constructor; [|constructor].
  unfold targeted. cbn [existsb].
  repeat match goal with
         | H : c <> _ |- _ => apply N.eqb_neq in H; rewrite H; clear H
         end.
  reflexivity.
Qed.

Lemma clean_text_clean (text : str) :
  Forall (fun d => targeted d = false) (clean_text text).
Proof.
  rewrite clean_text_flat_map.
  induction text as [|c s IH]; [constructor|].
  cbn [flat_map]. apply Forall_app. split; [apply ascii_equivalent_clean|exact IH].
Qed.

Lemma clean_text_fixed (text : str) :
  Forall (fun c => targeted c = false) text -> clean_text text = text.
Proof.
  rewrite clean_text_flat_map.
  induction 1 as [|c s Hc _ IH]; [reflexivity|].
  cbn [flat_map]. now rewrite (ascii_equivalent_untargeted c Hc), IH.
Qed.

(** C4: [clean_text] replaces every targeted code point with its
    documented ASCII text and changes nothing else (it is the
    substitution [ascii_equivalent] applied position by position); its
    output holds no targeted code point; it returns a string free of them
    unchanged, the empty string included; being a function on every
    [str], it fails on none. *)
Theorem C4_clean_text_replaces_typographic_punctuation :
  forall text : str,
    clean_text text = flat_map ascii_equivalent text
    /\ Forall (fun c => targeted c = false) (clean_text text)
    /\ ((forall c, In c text -> targeted c = false) -> clean_text text = text)
    /\ clean_text [] = [].
Proof.
  intros text. split; [apply clean_text_flat_map|].
  split; [apply clean_text_clean|].
  split; [|reflexivity].
  intros H. apply clean_text_fixed, Forall_forall. exact H.
Qed.

(** C10: [clean_text] is idempotent: no replacement text holds a code
    point that is itself replaced. *)
Theorem C10_clean_text_idempotent :
  forall text : str, clean_text (clean_text text) = clean_text text.
Proof.
  intros text. apply clean_text_fixed, clean_text_clean.
Qed.

(* ================================================================== *)
(** ** The summary extractor *)

Lemma map_filter_comm {A B} (f : A -> B) (p : B -> bool) (l : list A) :
  map f (filter (fun a => p (f a)) l) = filter p (map f l).
Proof.
  induction l as [|a l IH]; [reflexivity|].
  simpl. destruct (p (f a)); simpl; now rewrite IH.
Qed.

Lemma truthy_nonempty {A} (l : list A) : truthy l = true <-> l <> [].
Proof. destruct l; simpl; split; congruence. Qed.

(** The sentences kept by the summary are non-empty and hold no period. *)
Lemma sentences_plain (text : str) :
  Forall (fun w => w <> [] /\ ~ In 0x2E w)
    (filter truthy (map strip (split 0x2E text))).
Proof.
  apply Forall_forall. intros w Hw.
  apply filter_In in Hw as [Hin Ht].
  split; [now apply truthy_nonempty|].
  apply in_map_iff in Hin as [v [<- Hv]].
  intros Hdot. apply strip_incl in Hdot.
  pose proof (split_no_sep 0x2E text) as HF.
  rewrite Forall_forall in HF. exact (HF v Hv Hdot).
Qed.

(** C5: with the description container present, the summary is the
    single string obtained from the normalized container text by
    splitting it on the period, trimming every fragment, dropping the
    empty ones and joining the rest with [". "]; it never ends in a
    period; and the container text
    ["Visit Hanoi. See the lake. Enjoy."] gives
    ["Visit Hanoi. See the lake. Enjoy"]. *)
Theorem C5_summary_sentences_rejoined :
  forall soup description_elem : node,
    find "div" (Some "ao-clp-custom-tdp-itinerary__description"%string) soup
      = Some description_elem ->
    let fragments := split 0x2E (clean_text (get_text description_elem)) in
    let survivors := filter truthy (map strip fragments) in
    parse_itinerary_description soup = [join (lit ". ") survivors]
    /\ (forall p, join (lit ". ") survivors <> p ++ [0x2E])
    /\ (get_text description_elem = lit "Visit Hanoi. See the lake. Enjoy." ->
        parse_itinerary_description soup
          = [lit "Visit Hanoi. See the lake. Enjoy"]).
Proof.
  intros soup d Hfind fragments survivors.
  assert (Hres : parse_itinerary_description soup = [join (lit ". ") survivors]).
  { unfold parse_itinerary_description. rewrite Hfind.
    unfold survivors, fragments.
    now rewrite (map_filter_comm strip truthy). }
  split; [exact Hres|]. split.
  - apply join_not_ending. apply sentences_plain.
  - intros Htext. rewrite Hres. unfold survivors, fragments.
    rewrite Htext. vm_compute. reflexivity.
Qed.

(** C6: without the description container the summary is the list of one
    empty string, so its element 0 exists. *)
Theorem C6_summary_absent_is_one_empty_string :
  forall soup : node,
    find "div" (Some "ao-clp-custom-tdp-itinerary__description"%string) soup
      = None ->
    parse_itinerary_description soup = [[]]
    /\ parse_itinerary_description soup <> []
    /\ nth_error (parse_itinerary_description soup) 0 = Some [].
Proof.
  intros soup Hfind. unfold parse_itinerary_description. rewrite Hfind.
  repeat split. discriminate.
Qed.

(** Present or not, the description yields exactly one string. *)
Lemma summary_length (soup : node) :
  List.length (parse_itinerary_description soup) = 1%nat.
Proof.
  unfold parse_itinerary_description.
  destruct (find _ _ soup); reflexivity.
Qed.

(* ================================================================== *)
(** ** Removing the arrow text *)

Lemma replace_removes (x s : str) :
  x <> [] -> occurrences_removed x s (replace x [] s).
Proof.
  intros Hx.
  remember (List.length s) as n eqn:Hn. revert s Hn.
  induction n as [n IH] using lt_wf_ind. intros s ->.
  destruct (startswith x s) eqn:E.
  - apply startswith_inv in E as [t ->].
    rewrite replace_occurrence by assumption. cbn [app].
    apply removed_here. apply (IH (List.length t)); [|reflexivity].
    rewrite length_app. destruct x; [congruence|simpl; lia].
  - destruct s as [|c s].
    + rewrite replace_nil by assumption. constructor.
    + rewrite replace_other by assumption.
      apply removed_step; [assumption|].
      apply (IH (List.length s)); [simpl; lia|reflexivity].
Qed.

Lemma occurrences_removed_unique (x s r1 r2 : str) :
  x <> [] ->
  occurrences_removed x s r1 -> occurrences_removed x s r2 -> r1 = r2.
Proof.
  intros Hx H1. revert r2.
  induction H1 as [|s r1 H1 IH|c s r1 Hc H1 IH]; intros r2 H2.
  - inversion H2 as [|s' r' H' E|]; [reflexivity|].
    destruct x; [congruence|discriminate].
  - remember (x ++ s) as xs eqn:Exs.
    destruct H2 as [|s' r' H'|c s' r' Hc H'].
    + destruct x; [congruence|discriminate].
    + apply app_inv_head in Exs. subst s'. now apply IH.
    + pose proof (startswith_app x s). congruence.
  - remember (c :: s) as cs eqn:Ecs.
    destruct H2 as [|s' r' H'|c' s' r' Hc' H'].
    + discriminate.
    + pose proof (startswith_app x s'). congruence.
    + inversion Ecs; subst. f_equal. now apply IH.
Qed.

(** C2 (amended): when the title node holds an arrow node with a
    non-empty text, every occurrence of that text met in a scan of the
    title text from the left is removed, not the first one only; the
    result is then trimmed and normalized. *)
Theorem C2_arrow_text_removed_at_every_occurrence :
  forall title_elem arrow_elem : node,
    find "div" (Some "ao-common-accordion__arrow"%string) title_elem
      = Some arrow_elem ->
    get_text arrow_elem <> [] ->
    exists r,
      occurrences_removed (get_text arrow_elem) (get_text title_elem) r
      /\ (forall r', occurrences_removed (get_text arrow_elem)
                       (get_text title_elem) r' -> r' = r)
      /\ title_text_of title_elem = clean_text (strip r).
Proof.
  intros title_elem arrow_elem Hfind Hne.
  exists (replace (get_text arrow_elem) [] (get_text title_elem)).
  split; [now apply replace_removes|]. split.
  - intros r' Hr'.
    eapply occurrences_removed_unique; eauto using replace_removes.
  - unfold title_text_of. now rewrite Hfind.
Qed.

(* ================================================================== *)
(** ** The day extractor *)

(** Evaluate a closed subterm in place. *)
Ltac run t := let v := eval vm_compute in t in change t with v.

Section DayExtractor.

Variable isdecimal : char -> bool.

Lemma re_digits_colon_sound (s ds rest : str) :
  re_digits_colon isdecimal s = Some (ds, rest) ->
  s = ds ++ 0x3A :: rest /\ ds <> [] /\ forallb isdecimal ds = true.
Proof.
  revert ds rest. induction s as [|d s IH]; intros ds rest H.
  - discriminate.
  - cbn [re_digits_colon] in H.
    destruct (isdecimal d) eqn:Hd; [|discriminate].
    destruct (re_digits_colon isdecimal s) as [[ds' rest']|] eqn:Hrec.
    + inversion H; subst.
      destruct (IH _ _ eq_refl) as (-> & _ & Hall).
      cbn [forallb app]. rewrite Hd, Hall.
      repeat split. discriminate.
    + destruct s as [|c r]; [discriminate|].
      destruct (N.eqb_spec c 0x3A); [|discriminate].
      inversion H; subst. cbn [forallb app]. rewrite Hd.
      repeat split. discriminate.
Qed.

Lemma re_digits_colon_none (s : str) :
  existsb (N.eqb 0x3A) (tl s) = false -> re_digits_colon isdecimal s = None.
Proof.
  intros Hno.
  destruct (re_digits_colon isdecimal s) as [[ds rest]|] eqn:E; [|reflexivity].
  apply re_digits_colon_sound in E as (-> & Hds & _).
  destruct ds as [|d ds]; [congruence|].
  cbn [app tl] in Hno. rewrite existsb_app in Hno.
  cbn [existsb] in Hno. rewrite N.eqb_refl, orb_true_r in Hno. discriminate.
Qed.

Lemma re_digits_colon_cons (d : char) (s : str) :
  re_digits_colon isdecimal (d :: s) =
  if isdecimal d then
    match re_digits_colon isdecimal s with
    | Some (ds, rest) => Some (d :: ds, rest)
    | None =>
        match s with
        | c :: rest => if c =? 0x3A then Some ([d], rest) else None
        | [] => None
        end
    end
  else None.
Proof. reflexivity. Qed.

(** A title [Day d:rest] with one digit and no further colon. *)
Lemma re_day_at_one_digit (d : char) (rest : str) :
  isdecimal d = true ->
  existsb (N.eqb 0x3A) rest = false ->
  re_day_at isdecimal (lit "Day " ++ d :: 0x3A :: rest) = Some ([d], rest).
Proof.
  intros Hd Hrest. run (lit "Day ").
  cbn [app re_day_at]. rewrite re_digits_colon_cons, Hd.
  rewrite (re_digits_colon_none (0x3A :: rest)) by exact Hrest.
  reflexivity.
Qed.

(** When the pattern matches at the start, the search finds that match
    and the substitution removes it with the whitespace behind it. *)
Lemma re_day_anchored (s ds rest : str) :
  re_day_at isdecimal s = Some (ds, rest) ->
  re_search_day isdecimal s = Some ds
  /\ re_sub_day_prefix isdecimal s = lstrip rest
  /\ s = lit "Day " ++ ds ++ 0x3A :: rest.
Proof.
  intros H. unfold re_sub_day_prefix.
  destruct s as [|c s]; cbn [re_search_day]; rewrite H;
    (split; [reflexivity|split; [reflexivity|]]).
  - discriminate.
  - unfold re_day_at in H.
    repeat match type of H with
           | match ?l with _ => _ end = _ =>
               destruct l; try discriminate
           end.
    apply re_digits_colon_sound in H as (-> & _). reflexivity.
Qed.

Lemma entry_of_anchored (item title_elem : node) (ds rest : str) :
  find "div" (Some "js-ao-common-accordion__title"%string) item = Some title_elem ->
  re_day_at isdecimal (title_text_of title_elem) = Some (ds, rest) ->
  lstrip rest <> [] ->
  body_text_of item <> [] ->
  entry_of isdecimal item = [mkDay [] ds (lstrip rest) [] (body_text_of item)].
Proof.
  intros Hfind Hre Ht Hb.
  destruct (re_day_anchored _ _ _ Hre) as (Hs & Hsub & _).
  unfold entry_of, day_info_of. rewrite Hfind. cbv zeta.
  rewrite Hs, Hsub. cbn [title body].
  apply truthy_nonempty in Ht, Hb. now rewrite Ht, Hb.
Qed.

Lemma loop_body_entry (acc : list DayEntry) (item : node) :
  loop_body isdecimal acc item = acc ++ entry_of isdecimal item.
Proof.
  unfold loop_body, entry_of.
  destruct (day_info_of isdecimal item) as [d|]; [|now rewrite app_nil_r].
  destruct (truthy (title d) && truthy (body d)); [reflexivity|].
  now rewrite app_nil_r.
Qed.

Lemma fold_loop_body (items : list node) (acc : list DayEntry) :
  fold_left (loop_body isdecimal) items acc
  = acc ++ flat_map (entry_of isdecimal) items.
Proof.
  revert acc. induction items as [|i items IH]; intros acc; simpl.
  - now rewrite app_nil_r.
  - now rewrite IH, loop_body_entry, <- app_assoc.
Qed.

Lemma parse_itinerary_days_flat_map (soup itinerary_section : node) :
  find "section" (Some "ao-clp-custom-tdp-itinerary"%string) soup
    = Some itinerary_section ->
  parse_itinerary_days isdecimal soup
  = flat_map (entry_of isdecimal)
      (find_all "li" (Some "js-ao-common-accordion"%string) itinerary_section).
Proof.
  intros H. unfold parse_itinerary_days. rewrite H.
  now rewrite fold_loop_body.
Qed.

Lemma entry_of_filled (item : node) :
  Forall (fun e => title e <> [] /\ body e <> []) (entry_of isdecimal item).
Proof.
  unfold entry_of.
  destruct (day_info_of isdecimal item) as [d|]; [|constructor].
  destruct (truthy (title d)) eqn:Ht; [|constructor].
  destruct (truthy (body d)) eqn:Hb; [|constructor].
  constructor; [|constructor].
  split; now apply truthy_nonempty.
Qed.

(** C1 (the code departs from it): the day pattern is searched anywhere
    in the cleaned title, while the prefix is removed at the start only.
    The title ["Optional Day 3: Cruise"] does not begin with the pattern,
    yet its item is kept, with day ["3"] and the title left whole. *)
Theorem C1_day_pattern_found_past_the_start :
  isdecimal 0x33 = true ->
  re_day_at isdecimal (lit "Optional Day 3: Cruise") = None
  /\ parse_itinerary_days isdecimal page_optional
     = [mkDay [] (lit "3") (lit "Optional Day 3: Cruise") [] (lit "Sail.")].
Proof.
  intros H3. split; [reflexivity|].
  rewrite (parse_itinerary_days_flat_map page_optional
             (itinerary_of [item_optional]) eq_refl).
  change (find_all "li" (Some "js-ao-common-accordion"%string)
            (itinerary_of [item_optional])) with [item_optional].
  cbn [flat_map]. rewrite app_nil_r.
  unfold entry_of, day_info_of.
  change (find "div" (Some "js-ao-common-accordion__title"%string) item_optional)
    with (Some (div "js-ao-common-accordion__title" [text "Optional Day 3: Cruise"])).
  cbv beta iota zeta.
  change (title_text_of (div "js-ao-common-accordion__title"
                           [text "Optional Day 3: Cruise"]))
    with (lit "Optional Day 3: Cruise").
  change (body_text_of item_optional) with (lit "Sail.").
  run (lit "3"). run (lit "Optional Day 3: Cruise"). run (lit "Sail.").
  cbn [re_search_day re_day_at re_sub_day_prefix].
  rewrite re_digits_colon_cons, H3.
  rewrite re_digits_colon_none by reflexivity.
  reflexivity.
Qed.

(** C3: every entry of the result has a non-empty title and a non-empty
    body; and a candidate whose content node has no paragraph and no text
    adds nothing to the result, whatever its title. *)
Theorem C3_entries_have_title_and_body :
  forall soup : node,
    Forall (fun e => title e <> [] /\ body e <> [])
      (parse_itinerary_days isdecimal soup)
    /\ (forall (item content_elem : node) (itinerary_items : list DayEntry),
          find "div" (Some "ao-common-accordion__bottom-content"%string) item
            = Some content_elem ->
          find_all "p" None content_elem = [] ->
          get_text content_elem = [] ->
          entry_of isdecimal item = []
          /\ loop_body isdecimal itinerary_items item = itinerary_items).
Proof.
  intros soup. split.
  - unfold parse_itinerary_days.
    destruct (find "section" _ soup) as [sec|]; [|constructor].
    rewrite fold_loop_body. cbn [app].
    induction (find_all "li" _ sec) as [|i l IH]; [constructor|].
    cbn [flat_map]. apply Forall_app.
    split; [apply entry_of_filled|exact IH].
  - intros item c acc Hfind Hp Ht.
    assert (Hb : body_text_of item = []).
    { unfold body_text_of. rewrite Hfind, Hp. cbn [truthy]. now rewrite Ht. }
    assert (He : entry_of isdecimal item = []).
    { unfold entry_of, day_info_of.
      destruct (find "div" (Some "js-ao-common-accordion__title"%string) item);
        [|reflexivity].
      cbv zeta.
      destruct (re_search_day isdecimal _); [|reflexivity].
      cbn [title body]. rewrite Hb. cbn [truthy]. now rewrite andb_false_r. }
    split; [exact He|].
    now rewrite loop_body_entry, He, app_nil_r.
Qed.

(** C8: the result lists the entries of the candidates in the order in
    which [find_all] enumerates them, each candidate giving its own entry
    or none, whatever the day numbers; and two items titled
    ["Day 1: Hanoi"] and ["Day 2: Halong Bay"] with non-empty bodies give
    two entries in that order, with days ["1"], ["2"] and titles
    ["Hanoi"], ["Halong Bay"]. *)
Theorem C8_entries_in_document_order :
  forall soup itinerary_section : node,
    find "section" (Some "ao-clp-custom-tdp-itinerary"%string) soup
      = Some itinerary_section ->
    let day_items :=
      find_all "li" (Some "js-ao-common-accordion"%string) itinerary_section in
    parse_itinerary_days isdecimal soup
      = flat_map (entry_of isdecimal) day_items
    /\ (forall i1 i2 t1 t2 : node,
          day_items = [i1; i2] ->
          find "div" (Some "js-ao-common-accordion__title"%string) i1 = Some t1 ->
          find "div" (Some "js-ao-common-accordion__title"%string) i2 = Some t2 ->
          title_text_of t1 = lit "Day 1: Hanoi" ->
          title_text_of t2 = lit "Day 2: Halong Bay" ->
          body_text_of i1 <> [] ->
          body_text_of i2 <> [] ->
          isdecimal 0x31 = true ->
          isdecimal 0x32 = true ->
          parse_itinerary_days isdecimal soup
            = [ mkDay [] (lit "1") (lit "Hanoi") [] (body_text_of i1);
                mkDay [] (lit "2") (lit "Halong Bay") [] (body_text_of i2) ]).
Proof.
  intros soup sec Hsec day_items.
  pose proof (parse_itinerary_days_flat_map soup sec Hsec) as Hflat.
  split; [exact Hflat|].
  intros i1 i2 t1 t2 Hitems Hf1 Hf2 Ht1 Ht2 Hb1 Hb2 H1 H2.
  rewrite Hflat. fold day_items. rewrite Hitems. cbn [flat_map app].
  rewrite (entry_of_anchored i1 t1 [0x31] (lit " Hanoi") Hf1).
  - rewrite (entry_of_anchored i2 t2 [0x32] (lit " Halong Bay") Hf2).
    + reflexivity.
    + rewrite Ht2. now apply (re_day_at_one_digit 0x32 (lit " Halong Bay")).
    + discriminate.
    + exact Hb2.
  - rewrite Ht1. now apply (re_day_at_one_digit 0x31 (lit " Hanoi")).
  - discriminate.
  - exact Hb1.
Qed.

End DayExtractor.

(* ================================================================== *)
(** ** The theorems at the sample documents *)

Lemma C1_optional_day_kept :
  re_day_at ascii_decimal (lit "Optional Day 3: Cruise") = None
  /\ parse_itinerary_days ascii_decimal page_optional
     = [mkDay [] (lit "3") (lit "Optional Day 3: Cruise") [] (lit "Sail.")].
Proof.
  exact (C1_day_pattern_found_past_the_start ascii_decimal eq_refl).
Defined.

(** C2 as first stated fails: with the arrow text [">"] and the title
    text ["Day 1: Hanoi > Hue>"], removing the first occurrence only
    would leave the arrow's own glyph at the end; the code removes
    both. *)
Lemma C2_later_occurrence_removed_too :
  find "div" (Some "ao-common-accordion__arrow"%string) title_with_arrow
    = Some arrow_sample
  /\ get_text arrow_sample = lit ">"
  /\ get_text title_with_arrow = lit "Day 1: Hanoi > Hue>"
  /\ title_text_of title_with_arrow = lit "Day 1: Hanoi  Hue"
  /\ clean_text (strip (remove_first (get_text arrow_sample)
                          (get_text title_with_arrow)))
     = lit "Day 1: Hanoi  Hue>"
  /\ title_text_of title_with_arrow
     <> clean_text (strip (remove_first (get_text arrow_sample)
                             (get_text title_with_arrow))).
Proof.
  repeat split; try reflexivity.
  vm_compute. discriminate.
Qed.

Lemma C2_arrow_sample_removed :
  exists r,
    occurrences_removed (get_text arrow_sample) (get_text title_with_arrow) r
    /\ (forall r', occurrences_removed (get_text arrow_sample)
                     (get_text title_with_arrow) r' -> r' = r)
    /\ title_text_of title_with_arrow = clean_text (strip r).
Proof.
  apply (C2_arrow_text_removed_at_every_occurrence title_with_arrow arrow_sample).
  - reflexivity.
  - vm_compute. discriminate.
Defined.

Lemma C5_sample_summary :
  parse_itinerary_description page_description
  = [lit "Visit Hanoi. See the lake. Enjoy"].
Proof.
  destruct (C5_summary_sentences_rejoined page_description description_sample
              eq_refl) as (_ & _ & H).
  apply H. reflexivity.
Defined.

Lemma C6_bare_page_summary :
  parse_itinerary_description page_bare = [[]]
  /\ parse_itinerary_description page_bare <> []
  /\ nth_error (parse_itinerary_description page_bare) 0 = Some [].
Proof.
  apply (C6_summary_absent_is_one_empty_string page_bare). reflexivity.
Defined.

(** C7 as first stated fails: the content node of [item_wrapped] has no
    paragraph among its children, so the fallback would give its full
    text ["IntroHello"]; the code finds the paragraph inside the wrapper
    and gives ["Hello"]. *)
Lemma C7_paragraph_inside_wrapper :
  find "div" (Some "ao-common-accordion__bottom-content"%string) item_wrapped
    = Some content_wrapped
  /\ filter (selects "p" None) (children content_wrapped) = []
  /\ body_text_of item_wrapped = lit "Hello"
  /\ body_by_paragraph_children content_wrapped = lit "IntroHello"
  /\ body_text_of item_wrapped <> body_by_paragraph_children content_wrapped.
Proof.
  repeat split; try reflexivity.
  vm_compute. discriminate.
Qed.

Lemma C8_two_days_in_order :
  parse_itinerary_days ascii_decimal page_two_days
  = [ mkDay [] (lit "1") (lit "Hanoi") [] (lit "Arrive in Hanoi. Rest.");
      mkDay [] (lit "2") (lit "Halong Bay") [] (lit "Cruise the bay.") ].
Proof.
  destruct (C8_entries_in_document_order ascii_decimal page_two_days
              (itinerary_of [item_hanoi; item_halong]) eq_refl) as [_ H].
  apply (H item_hanoi item_halong
           (div "js-ao-common-accordion__title" [text "Day 1: Hanoi"])
           (div "js-ao-common-accordion__title" [text "Day 2: Halong Bay"]));
    try reflexivity; vm_compute; discriminate.
Defined.

(** Day numbers out of order and repeated come out as the page has
    them. *)
Example days_not_sorted :
  map day (parse_itinerary_days ascii_decimal
             (page [item_halong; item_hanoi; item_halong]))
  = [lit "2"; lit "1"; lit "2"].
Proof. vm_compute. reflexivity. Qed.

(** A matching title over a content node without text gives no entry. *)
Example no_text_no_entry :
  day_info_of ascii_decimal item_no_text
    = Some (mkDay [] (lit "4") (lit "Hue") [] [])
  /\ parse_itinerary_days ascii_decimal (page [item_hanoi; item_no_text])
     = parse_itinerary_days ascii_decimal (page [item_hanoi]).
Proof. split; vm_compute; reflexivity. Qed.

(* ================================================================== *)
(** ** Trimmed strings *)

Lemma lstrip_starts_clean (s : str) : starts_clean (lstrip s) = true.
Proof.
  induction s as [|c s IH]; [reflexivity|].
  cbn [lstrip]. destruct (isspace c) eqn:E; [exact IH|].
  cbn [starts_clean]. now rewrite E.
Qed.

Lemma lstrip_fixed (s : str) : starts_clean s = true -> lstrip s = s.
Proof.
  destruct s as [|c s]; [reflexivity|].
  cbn [starts_clean lstrip]. now destruct (isspace c).
Qed.

Lemma lstrip_suffix (s : str) : exists p, s = p ++ lstrip s.
Proof.
  induction s as [|c s [p IH]]; [now exists []|].
  cbn [lstrip]. destruct (isspace c).
  - exists (c :: p). cbn [app]. now rewrite <- IH.
  - now exists [].
Qed.

Lemma lstrip_snoc (a : str) (c : char) :
  isspace c = false -> lstrip (a ++ [c]) = lstrip a ++ [c].
Proof.
  intros Hc. induction a as [|x a IH]; cbn [app lstrip].
  - now rewrite Hc.
  - destruct (isspace x); [exact IH|reflexivity].
Qed.

Lemma rstrip_keeps_start (s : str) :
  starts_clean s = true -> starts_clean (rstrip s) = true.
Proof.
  destruct s as [|c s]; [reflexivity|].
  cbn [starts_clean]. intros Hc. apply negb_true_iff in Hc.
  unfold rstrip. cbn [rev]. rewrite lstrip_snoc by exact Hc.
  rewrite rev_app_distr. cbn [rev app starts_clean]. now rewrite Hc.
Qed.

(** What [strip] returns is trimmed. *)
Lemma strip_trimmed (s : str) : trimmed (strip s) = true.
Proof.
  unfold trimmed. apply andb_true_iff. split.
  - apply rstrip_keeps_start, lstrip_starts_clean.
  - unfold strip, rstrip. rewrite rev_involutive. apply lstrip_starts_clean.
Qed.

(** [strip] leaves a trimmed string alone. *)
Lemma trimmed_strip (s : str) : trimmed s = true -> strip s = s.
Proof.
  unfold trimmed. intros H. apply andb_true_iff in H as [Hs He].
  unfold strip, rstrip.
  rewrite (lstrip_fixed s Hs), (lstrip_fixed (rev s) He).
  apply rev_involutive.
Qed.

Lemma trimmed_iff (s : str) : trimmed s = true <-> strip s = s.
Proof.
  split; [apply trimmed_strip|].
  intros <-. apply strip_trimmed.
Qed.

Lemma starts_clean_app (x y : str) :
  x <> [] -> starts_clean (x ++ y) = starts_clean x.
Proof. destruct x; [congruence|reflexivity]. Qed.

(** A non-empty end of a trimmed string ends as the string does. *)
Lemma trimmed_suffix_end (p x : str) :
  starts_clean (rev (p ++ x)) = true -> x <> [] -> starts_clean (rev x) = true.
Proof.
  intros H Hx. rewrite rev_app_distr in H.
  rewrite starts_clean_app in H; [exact H|].
  intros E. apply Hx. apply (f_equal (@rev char)) in E.
  now rewrite rev_involutive in E.
Qed.

Lemma join_nil_concat (l : list str) : join [] l = List.concat l.
Proof.
  induction l as [|x l IH]; [reflexivity|].
  cbn [join List.concat]. destruct l as [|y l].
  - cbn [List.concat]. now rewrite app_nil_r.
  - cbn [app]. now rewrite IH.
Qed.

Lemma concat_trimmed (l : list str) :
  Forall (fun x => x <> [] /\ trimmed x = true) l -> trimmed (List.concat l) = true.
Proof.
  induction 1 as [|x l [Hx Ht] _ IH]; [reflexivity|].
  unfold trimmed in *. apply andb_true_iff in Ht as [Hs He].
  apply andb_true_iff in IH as [_ IHe].
  cbn [List.concat]. apply andb_true_iff. split.
  - now rewrite starts_clean_app.
  - rewrite rev_app_distr.
    destruct (List.concat l) as [|c r] eqn:E; [exact He|].
    rewrite starts_clean_app; [exact IHe|].
    intros E'. apply (f_equal (@rev char)) in E'.
    rewrite rev_involutive in E'. discriminate.
Qed.

Lemma stripped_strings_trimmed (n : node) :
  Forall (fun x => x <> [] /\ trimmed x = true) (stripped_strings n).
Proof.
  unfold stripped_strings.
  induction (descendants n) as [|d l IH]; [constructor|].
  cbn [flat_map]. apply Forall_app. split; [|exact IH].
  destruct d as [s|nm cls cs]; [|constructor].
  cbv zeta. destruct (truthy (strip s)) eqn:E; [|constructor].
  constructor; [|constructor].
  split; [now apply truthy_nonempty|apply strip_trimmed].
Qed.

(** The text of a node is trimmed. *)
Lemma get_text_trimmed (n : node) : trimmed (get_text n) = true.
Proof.
  unfold get_text. rewrite join_nil_concat.
  apply concat_trimmed, stripped_strings_trimmed.
Qed.

Lemma ascii_equivalent_nonempty (c : char) : ascii_equivalent c <> [].
Proof.
  unfold ascii_equivalent.
  repeat match goal with
         | |- context [if ?b then _ else _] => destruct b
         end; discriminate.
Qed.

Lemma ascii_equivalent_no_space (c : char) :
  isspace c = false ->
  Forall (fun d => isspace d = false) (ascii_equivalent c).
Proof.
  intros Hc. unfold ascii_equivalent.
  repeat match goal with
         | |- context [if ?b then _ else _] => destruct b
         end;
    try solve [vm_compute; repeat constructor].
  constructor; [exact Hc|constructor].
Qed.

Lemma ascii_equivalent_starts (c : char) (r : str) :
  isspace c = false -> starts_clean (ascii_equivalent c ++ r) = true.
Proof.
  intros Hc. pose proof (ascii_equivalent_no_space c Hc) as HF.
  pose proof (ascii_equivalent_nonempty c) as Hne.
  destruct (ascii_equivalent c) as [|d t]; [congruence|].
  inversion HF; subst. cbn [app starts_clean].
  apply negb_true_iff. assumption.
Qed.

Lemma ascii_equivalent_ends (c : char) (r : str) :
  isspace c = false -> starts_clean (rev (ascii_equivalent c) ++ r) = true.
Proof.
  intros Hc. pose proof (ascii_equivalent_no_space c Hc) as HF.
  pose proof (ascii_equivalent_nonempty c) as Hne.
  apply Forall_rev in HF.
  destruct (rev (ascii_equivalent c)) as [|d t] eqn:E.
  - apply (f_equal (@rev char)) in E. rewrite rev_involutive in E.
    cbn in E. congruence.
  - inversion HF; subst. cbn [app starts_clean].
    apply negb_true_iff. assumption.
Qed.

(** [clean_text] keeps a trimmed string trimmed. *)
Lemma clean_text_trimmed (s : str) :
  trimmed s = true -> trimmed (clean_text s) = true.
Proof.
  unfold trimmed. intros H. apply andb_true_iff in H as [Hs He].
  apply andb_true_iff. split.
  - destruct s as [|c s]; [reflexivity|].
    rewrite clean_text_flat_map. cbn [flat_map].
    apply ascii_equivalent_starts. cbn [starts_clean] in Hs.
    now apply negb_true_iff.
  - destruct (rev s) as [|c t] eqn:E.
    + apply (f_equal (@rev char)) in E. rewrite rev_involutive in E.
      subst s. reflexivity.
    + apply (f_equal (@rev char)) in E. rewrite rev_involutive in E.
      subst s. cbn [rev]. rewrite clean_text_app, clean_text_single.
      rewrite rev_app_distr. apply ascii_equivalent_ends.
      cbn [starts_clean] in He. now apply negb_true_iff.
Qed.

Lemma title_text_of_trimmed (title_elem : node) :
  trimmed (title_text_of title_elem) = true.
Proof.
  unfold title_text_of. cbv zeta. apply clean_text_trimmed.
  destruct (find _ _ title_elem); [apply strip_trimmed|apply get_text_trimmed].
Qed.

(* ================================================================== *)
(** ** What every entry of the result satisfies *)

Section Entries.

Variable isdecimal : char -> bool.

Lemma re_day_at_sound (s ds rest : str) :
  re_day_at isdecimal s = Some (ds, rest) ->
  s = lit "Day " ++ ds ++ 0x3A :: rest
  /\ ds <> [] /\ forallb isdecimal ds = true.
Proof.
  intros H.
  destruct (re_day_anchored isdecimal _ _ _ H) as (_ & _ & Hshape).
  split; [exact Hshape|].
  assert (Hd : re_digits_colon isdecimal (ds ++ 0x3A :: rest) = Some (ds, rest)).
  { rewrite Hshape in H. exact H. }
  apply re_digits_colon_sound in Hd as (_ & Hne & Hall). now split.
Qed.

Lemma re_search_day_sound (s ds : str) :
  re_search_day isdecimal s = Some ds ->
  exists pre rest,
    s = pre ++ lit "Day " ++ ds ++ 0x3A :: rest
    /\ ds <> [] /\ forallb isdecimal ds = true.
Proof.
  induction s as [|c s IH]; intros H.
  - discriminate.
  - cbn [re_search_day] in H.
    destruct (re_day_at isdecimal (c :: s)) as [[ds' rest]|] eqn:E.
    + inversion H; subst ds'.
      apply re_day_at_sound in E as (Hs & Hne & Hall).
      exists [], rest. now split.
    + destruct (IH H) as (pre & rest & -> & Hne & Hall).
      exists (c :: pre), rest. now split.
Qed.

Lemma re_sub_day_prefix_suffix (s : str) :
  exists p, s = p ++ re_sub_day_prefix isdecimal s.
Proof.
  unfold re_sub_day_prefix.
  destruct (re_day_at isdecimal s) as [[ds rest]|] eqn:E; [|now exists []].
  apply re_day_at_sound in E as (-> & _).
  destruct (lstrip_suffix rest) as [p Hp].
  exists (lit "Day " ++ ds ++ 0x3A :: p).
  rewrite <- !app_assoc. cbn [app]. now rewrite <- Hp.
Qed.

(** How a candidate's dictionary is filled. *)
Lemma day_info_of_inv (item : node) (e : DayEntry) :
  day_info_of isdecimal item = Some e ->
  exists title_elem,
    find "div" (Some "js-ao-common-accordion__title"%string) item = Some title_elem
    /\ re_search_day isdecimal (title_text_of title_elem) = Some (day e)
    /\ title e = re_sub_day_prefix isdecimal (title_text_of title_elem)
    /\ body e = body_text_of item
    /\ icon e = [] /\ image e = [].
Proof.
  unfold day_info_of. intros H.
  destruct (find "div" _ item) as [t|]; [|discriminate].
  cbv zeta in H.
  destruct (re_search_day isdecimal (title_text_of t)) as [d|] eqn:E;
    [|discriminate].
  inversion H; subst e. exists t. cbn. repeat split. exact E.
Qed.

Lemma entry_of_In (item : node) (e : DayEntry) :
  In e (entry_of isdecimal item) ->
  day_info_of isdecimal item = Some e /\ title e <> [] /\ body e <> [].
Proof.
  unfold entry_of.
  destruct (day_info_of isdecimal item) as [d|]; [|intros []].
  destruct (truthy (title d)) eqn:Ht; [|intros []].
  destruct (truthy (body d)) eqn:Hb; [|intros []].
  cbn [andb In]. intros [<-|[]].
  repeat split; now apply truthy_nonempty.
Qed.

(** Every entry of the result is the dictionary of one of the
    candidates. *)
Lemma parse_itinerary_days_In (soup : node) (e : DayEntry) :
  In e (parse_itinerary_days isdecimal soup) ->
  exists itinerary_section item,
    find "section" (Some "ao-clp-custom-tdp-itinerary"%string) soup
      = Some itinerary_section
    /\ In item (find_all "li" (Some "js-ao-common-accordion"%string)
                  itinerary_section)
    /\ day_info_of isdecimal item = Some e
    /\ title e <> [] /\ body e <> [].
Proof.
  intros H.
  destruct (find "section" (Some "ao-clp-custom-tdp-itinerary"%string) soup)
    as [sec|] eqn:Hsec.
  - rewrite (parse_itinerary_days_flat_map isdecimal soup sec Hsec) in H.
    apply in_flat_map in H as (item & Hitem & He).
    exists sec, item. split; [reflexivity|]. split; [exact Hitem|].
    now apply entry_of_In.
  - unfold parse_itinerary_days in H. rewrite Hsec in H. destruct H.
Qed.

(** X2: the reserved fields [icon] and [image] of every entry of the
    result are empty. *)
Theorem X2_icon_and_image_stay_empty :
  forall (soup : node) (e : DayEntry),
    In e (parse_itinerary_days isdecimal soup) ->
    icon e = [] /\ image e = [].
Proof.
  intros soup e H.
  apply parse_itinerary_days_In in H as (_ & item & _ & _ & Hd & _).
  apply day_info_of_inv in Hd as (_ & _ & _ & _ & _ & Hi & Hm). now split.
Qed.

(** X3: the [day] of every entry of the result is a non-empty run of
    decimal digits, and the cleaned title of the accordion item the entry
    comes from holds [Day <day>:]. *)
Theorem X3_day_is_a_run_of_digits :
  forall (soup : node) (e : DayEntry),
    In e (parse_itinerary_days isdecimal soup) ->
    day e <> []
    /\ forallb isdecimal (day e) = true
    /\ exists itinerary_section item title_elem,
         find "section" (Some "ao-clp-custom-tdp-itinerary"%string) soup
           = Some itinerary_section
         /\ In item (find_all "li" (Some "js-ao-common-accordion"%string)
                       itinerary_section)
         /\ day_info_of isdecimal item = Some e
         /\ find "div" (Some "js-ao-common-accordion__title"%string) item
            = Some title_elem
         /\ occurs_in (lit "Day " ++ day e ++ lit ":") (title_text_of title_elem).
Proof.
  intros soup e H.
  apply parse_itinerary_days_In in H as (sec & item & Hsec & Hitem & Hd & _).
  pose proof Hd as Hd'.
  apply day_info_of_inv in Hd as (t & Hfind & Hs & _).
  apply re_search_day_sound in Hs as (pre & rest & Hshape & Hne & Hall).
  split; [exact Hne|]. split; [exact Hall|].
  exists sec, item, t. repeat (split; [assumption|]).
  exists pre, rest. rewrite Hshape.
  rewrite <- !app_assoc. reflexivity.
Qed.

(** X5: the [title] of every entry of the result is trimmed: [strip]
    would not change it. *)
Theorem X5_titles_are_trimmed :
  forall (soup : node) (e : DayEntry),
    In e (parse_itinerary_days isdecimal soup) ->
    strip (title e) = title e.
Proof.
  intros soup e H.
  apply parse_itinerary_days_In in H as (_ & item & _ & _ & Hd & Hne & _).
  apply day_info_of_inv in Hd as (t & _ & _ & Ht & _).
  apply trimmed_strip. unfold trimmed. apply andb_true_iff.
  pose proof (title_text_of_trimmed t) as Htrim.
  unfold trimmed in Htrim. apply andb_true_iff in Htrim as [Hs He].
  rewrite Ht in *. split.
  - unfold re_sub_day_prefix.
    destruct (re_day_at isdecimal (title_text_of t)) as [[ds rest]|];
      [apply lstrip_starts_clean|exact Hs].
  - destruct (re_sub_day_prefix_suffix (title_text_of t)) as [p Hp].
    rewrite Hp in He. now apply trimmed_suffix_end in He.
Qed.

(** X7: the result never has more entries than the itinerary section
    has accordion items, and has none without the section. *)
Theorem X7_no_more_days_than_items :
  forall soup : node,
    (List.length (parse_itinerary_days isdecimal soup)
     <= match find "section" (Some "ao-clp-custom-tdp-itinerary"%string) soup with
        | Some itinerary_section =>
            List.length (find_all "li" (Some "js-ao-common-accordion"%string)
                           itinerary_section)
        | None => O
        end)%nat.
Proof.
  intros soup. unfold parse_itinerary_days.
  destruct (find "section" _ soup) as [sec|]; [|apply le_n].
  rewrite fold_loop_body. cbn [app].
  induction (find_all "li" _ sec) as [|i l IH]; [apply le_n|].
  cbn [flat_map]. rewrite length_app. cbn [List.length].
  assert (List.length (entry_of isdecimal i) <= 1)%nat; [|lia].
  unfold entry_of. destruct (day_info_of isdecimal i) as [d|]; [|cbn; lia].
  destruct (truthy (title d) && truthy (body d)); cbn; lia.
Qed.

End Entries.

(* ================================================================== *)
(** ** The record as a whole *)

Lemma join_In (sep : str) (l : list str) (c : char) :
  In c (join sep l) -> In c sep \/ exists x, In x l /\ In c x.
Proof.
  induction l as [|x l IH]; [intros []|].
  destruct l as [|y l].
  - cbn [join]. intros H. right. exists x. split; [now left|exact H].
  - change (join sep (x :: y :: l)) with (x ++ sep ++ join sep (y :: l)).
    intros H. apply in_app_or in H as [H|H].
    + right. exists x. split; [now left|exact H].
    + apply in_app_or in H as [H|H]; [now left|].
      destruct (IH H) as [Hs|(z & Hz & Hc)]; [now left|].
      right. exists z. split; [now right|exact Hc].
Qed.




(** The summary holds no targeted code point. *)
Lemma summary_clean (soup : node) (s : str) :
  In s (parse_itinerary_description soup) ->
  Forall (fun c => targeted c = false) s.
Proof.
  unfold parse_itinerary_description.
  destruct (find "div" _ soup) as [d|].
  - cbv zeta. intros [<-|[]]. apply Forall_forall. intros c Hc.
    apply join_In in Hc as [Hc|(x & Hx & Hc)].
    + revert c Hc. apply Forall_forall. vm_compute. repeat constructor.
    + apply in_map_iff in Hx as (y & <- & Hy).
      apply filter_In in Hy as [Hy _].
      apply strip_incl in Hc.
      pose proof (clean_text_clean (get_text d)) as HF.
      rewrite Forall_forall in HF. apply HF.
      clear HF. revert y Hy c Hc.
      generalize (clean_text (get_text d)). intros t.
      induction t as [|a t IH]; intros y Hy c Hc.
      * destruct Hy as [<-|[]]. destruct Hc.
      * cbn [split] in Hy. destruct (a =? 46) eqn:Ea.
        -- destruct Hy as [<-|Hy]; [destruct Hc|].
           right. eapply IH; eauto.
        -- destruct (split 46 t) as [|w ws] eqn:Es.
           ++ destruct Hy as [<-|[]]. destruct Hc as [<-|[]]. now left.
           ++ destruct Hy as [<-|Hy].
              ** destruct Hc as [<-|Hc]; [now left|].
                 right. apply (IH w); [now left|exact Hc].
              ** right. apply (IH y); [now right|exact Hc].
  - intros [<-|[]]. constructor.
Qed.

Lemma title_text_of_clean (title_elem : node) :
  Forall (fun c => targeted c = false) (title_text_of title_elem).
Proof. unfold title_text_of. cbv zeta. apply clean_text_clean. Qed.

Lemma body_text_of_clean (item : node) :
  Forall (fun c => targeted c = false) (body_text_of item).
Proof.
  unfold body_text_of.
  destruct (find "div" _ item); [apply clean_text_clean|constructor].
Qed.

Section WholeRecord.

Variable isdecimal : char -> bool.
Variable BeautifulSoup : str -> outcome node.

(** X4: no string of a record that [scrape_tour_info] returns holds one
    of the code points [clean_text] replaces: not the summary, and not a
    field of a day. *)
Theorem X4_record_free_of_typographic_punctuation :
  forall (fetched : outcome str) (record : TourRecord),
    scrape_tour_info isdecimal BeautifulSoup fetched = Returns record ->
    (forall s, In s (summary record) -> Forall (fun c => targeted c = false) s)
    /\ (forall e, In e (itinerary record) ->
          Forall (fun c => targeted c = false) (icon e)
          /\ Forall (fun c => targeted c = false) (day e)
          /\ Forall (fun c => targeted c = false) (title e)
          /\ Forall (fun c => targeted c = false) (image e)
          /\ Forall (fun c => targeted c = false) (body e)).
Proof.
  intros fetched record H. unfold scrape_tour_info in H.
  destruct fetched as [html|msg]; [|discriminate].
  destruct (BeautifulSoup html) as [soup|msg]; [|discriminate].
  cbv zeta in H. inversion H; subst record; clear H. cbn [summary itinerary].
  split; [intros s Hs; now apply summary_clean in Hs|].
  intros e He.
  apply parse_itinerary_days_In in He as (_ & item & _ & _ & Hd & _).
  apply day_info_of_inv in Hd as (t & _ & Hs & Ht & Hb & -> & ->).
  pose proof (title_text_of_clean t) as Hclean.
  split; [constructor|]. split; [|split; [|split; [constructor|]]].
  - apply re_search_day_sound in Hs as (pre & rest & Hshape & _).
    rewrite Hshape in Hclean.
    apply Forall_app in Hclean as [_ Hclean].
    apply Forall_app in Hclean as [_ Hclean].
    now apply Forall_app in Hclean as [Hclean _].
  - destruct (re_sub_day_prefix_suffix isdecimal (title_text_of t)) as [p Hp].
    rewrite Hp in Hclean. rewrite Ht.
    now apply Forall_app in Hclean as [_ Hclean].
  - rewrite Hb. apply body_text_of_clean.
Qed.

Lemma re_digits_colon_run (ds rest : str) :
  isdecimal 0x3A = false ->
  ds <> [] -> forallb isdecimal ds = true ->
  re_digits_colon isdecimal (ds ++ 0x3A :: rest) = Some (ds, rest).
Proof.
  intros Hcolon. induction ds as [|d ds IH]; [congruence|].
  intros _ Hall. cbn [forallb] in Hall.
  apply andb_true_iff in Hall as [Hd Hall].
  cbn [app]. rewrite re_digits_colon_cons, Hd.
  destruct ds as [|d' ds].
  - cbn [app]. rewrite re_digits_colon_cons, Hcolon. reflexivity.
  - rewrite IH by (discriminate || exact Hall). reflexivity.
Qed.

(** X6: when the colon is no decimal digit, the heading
    ["Day <day>: <title>"] that the preview shows for an entry of the
    result reads back as that entry: the day pattern finds its [day], and
    removing the prefix gives its [title]. *)
Theorem X6_preview_heading_reads_back :
  isdecimal 0x3A = false ->
  forall (soup : node) (e : DayEntry),
    In e (parse_itinerary_days isdecimal soup) ->
    re_search_day isdecimal (App.expander_label e) = Some (day e)
    /\ re_sub_day_prefix isdecimal (App.expander_label e) = title e.
Proof.
  intros Hcolon soup e He.
  assert (Htrim : strip (title e) = title e).
  { apply parse_itinerary_days_In in He as (_ & item & _ & _ & Hd & Hne & _).
    apply day_info_of_inv in Hd as (t & _ & _ & Ht & _).
    apply trimmed_strip. unfold trimmed. apply andb_true_iff.
    pose proof (title_text_of_trimmed t) as Htr.
    unfold trimmed in Htr. apply andb_true_iff in Htr as [Hs Hend].
    rewrite Ht in *. split.
    - unfold re_sub_day_prefix.
      destruct (re_day_at isdecimal (title_text_of t)) as [[ds rest]|];
        [apply lstrip_starts_clean|exact Hs].
    - destruct (re_sub_day_prefix_suffix isdecimal (title_text_of t)) as [p Hp].
      rewrite Hp in Hend. now apply trimmed_suffix_end in Hend. }
  apply trimmed_iff in Htrim. unfold trimmed in Htrim.
  apply andb_true_iff in Htrim as [Hstart _].
  apply parse_itinerary_days_In in He as (_ & item & _ & _ & Hd & _).
  apply day_info_of_inv in Hd as (t & _ & Hs & _).
  apply re_search_day_sound in Hs as (_ & _ & _ & Hne & Hall).
  assert (Hat : re_day_at isdecimal (App.expander_label e)
                = Some (day e, 0x20 :: title e)).
  { unfold App.expander_label.
    change (lit "Day " ++ day e ++ lit ": " ++ title e)
      with (0x44 :: 0x61 :: 0x79 :: 0x20 :: (day e ++ lit ": " ++ title e)).
    cbn [re_day_at].
    change (lit ": " ++ title e) with (0x3A :: 0x20 :: title e).
    now apply re_digits_colon_run. }
  split.
  - unfold App.expander_label in *.
    destruct (lit "Day " ++ day e ++ lit ": " ++ title e) as [|c s] eqn:E;
      cbn [re_search_day]; now rewrite Hat.
  - unfold re_sub_day_prefix. rewrite Hat.
    change (lstrip (0x20 :: title e)) with (lstrip (title e)).
    now apply lstrip_fixed.
Qed.


End WholeRecord.

(* ================================================================== *)
(** ** A node found below another *)

(** Induction on a document, the contents of a tag taken together. *)
Lemma node_deep_ind (P : node -> Prop) :
  (forall s, P (NavigableString s)) ->
  (forall name class_ contents,
      Forall P contents -> P (Tag name class_ contents)) ->
  forall n, P n.
Proof.
  intros Hs Ht. fix IH 1. intros [s|name class_ contents].
  - apply Hs.
  - apply Ht. induction contents as [|c cs IHcs]; constructor.
    + apply IH.
    + exact IHcs.
Qed.

(** The descendants of a descendant lie together, right behind it. *)
Lemma descendants_nested (n d : node) :
  In d (descendants n) ->
  exists pre post, descendants n = pre ++ d :: descendants d ++ post.
Proof.
  induction n as [s|name class_ contents IH] using node_deep_ind;
    [intros H; destruct H|].
  cbn [descendants]. intros H.
  apply in_flat_map in H as (c & Hc & Hd).
  apply in_split in Hc as (l1 & l2 & ->).
  rewrite flat_map_app. cbn [flat_map].
  apply Forall_app in IH as [_ IH]. inversion IH as [|? ? IHc _]; subst.
  destruct Hd as [<-|Hd].
  - exists (flat_map (fun c => c :: descendants c) l1),
           (flat_map (fun c => c :: descendants c) l2).
    reflexivity.
  - destruct (IHc Hd) as (p & q & Hpq).
    exists (flat_map (fun c => c :: descendants c) l1 ++ c :: p),
           (q ++ flat_map (fun c => c :: descendants c) l2).
    rewrite Hpq. cbn [app]. rewrite <- !app_assoc. cbn [app].
    rewrite <- !app_assoc. reflexivity.
Qed.

Lemma hd_error_filter_In {A} (f : A -> bool) (l : list A) (a : A) :
  hd_error (filter f l) = Some a -> In a l /\ f a = true.
Proof.
  intros H. apply filter_In.
  destruct (filter f l) as [|b t]; [discriminate|].
  inversion H; subst. now left.
Qed.

(** What [find] returns is a tag below the node searched. *)
Lemma find_descendant (name : string) (class_ : option string) (n d : node) :
  find name class_ n = Some d ->
  In d (descendants n) /\ selects name class_ d = true.
Proof. apply hd_error_filter_In. Qed.

(** The text of a tag found below a node occurs in the text of the
    node. *)
Lemma get_text_nested (name : string) (class_ : option string) (n d : node) :
  find name class_ n = Some d -> occurs_in (get_text d) (get_text n).
Proof.
  intros H. apply find_descendant in H as [Hin Hsel].
  apply descendants_nested in Hin as (pre & post & Hdesc).
  destruct d as [s|nm cls cs]; [discriminate|].
  assert (Hsplit : exists a b,
             stripped_strings n = a ++ stripped_strings (Tag nm cls cs) ++ b).
  { unfold stripped_strings. rewrite Hdesc.
    rewrite flat_map_app. cbn [flat_map]. rewrite flat_map_app.
    cbn [app]. do 2 eexists. reflexivity. }
  destruct Hsplit as (a & b & Hsplit).
  exists (List.concat a), (List.concat b).
  unfold get_text. rewrite !join_nil_concat, Hsplit, !concat_app. reflexivity.
Qed.

Lemma replace_no_longer (x s : str) (k : nat) :
  (List.length (replace_scan x [] k s) <= List.length s)%nat.
Proof.
  revert k. induction s as [|c s IH]; intros k; [apply le_n|].
  cbn [replace_scan]. destruct k as [|k].
  - destruct (startswith x (c :: s)); cbn [app List.length].
    + specialize (IH (pred (List.length x))). lia.
    + specialize (IH O). lia.
  - cbn [List.length]. specialize (IH k). lia.
Qed.

(** Where [x] occurs, the scan takes out at least one occurrence. *)
Lemma replace_shrinks (x pre post : str) :
  x <> [] ->
  (List.length (replace x [] (pre ++ x ++ post)) + List.length x
   <= List.length (pre ++ x ++ post))%nat.
Proof.
  intros Hx.
  remember (List.length pre) as n eqn:Hn. revert pre Hn.
  induction n as [n IH] using lt_wf_ind. intros pre ->.
  destruct (startswith x (pre ++ x ++ post)) eqn:E.
  - apply startswith_inv in E as [t Ht]. rewrite Ht.
    rewrite replace_occurrence by assumption. cbn [app].
    rewrite length_app.
    assert (List.length (replace x [] t) <= List.length t)%nat; [|lia].
    destruct x as [|a x]; [congruence|]. apply replace_no_longer.
  - destruct pre as [|c pre].
    + cbn [app] in E. rewrite startswith_app in E. discriminate.
    + cbn [app] in *. rewrite replace_other by assumption.
      cbn [List.length].
      specialize (IH (List.length pre) (Nat.lt_succ_diag_r _) pre eq_refl).
      lia.
Qed.

(** X8: the arrow node lies inside the title node, so its text always
    occurs in the title text; taking it out therefore shortens the title
    text by at least the length of the arrow text. *)
Theorem X8_arrow_text_is_always_found :
  forall title_elem arrow_elem : node,
    find "div" (Some "ao-common-accordion__arrow"%string) title_elem
      = Some arrow_elem ->
    occurs_in (get_text arrow_elem) (get_text title_elem)
    /\ (List.length (replace (get_text arrow_elem) [] (get_text title_elem))
        + List.length (get_text arrow_elem)
        <= List.length (get_text title_elem))%nat.
Proof.
  intros title_elem arrow_elem H.
  pose proof (get_text_nested _ _ _ _ H) as Hocc.
  split; [exact Hocc|].
  destruct Hocc as (pre & post & Heq). rewrite Heq.
  destruct (get_text arrow_elem) as [|a x] eqn:Ex.
  - cbn [replace app List.length flat_map].
    rewrite Nat.add_0_r. apply Nat.eq_le_incl. f_equal.
    clear. induction (pre ++ post) as [|c l IHl]; [reflexivity|].
    cbn [flat_map app]. now rewrite IHl.
  - apply replace_shrinks. discriminate.
Qed.

(* ================================================================== *)
(** ** The normalizer and the summary, once more *)

Lemma ascii_equivalent_length (c : char) :
  (1 <= List.length (ascii_equivalent c) <= 3)%nat.
Proof.
  unfold ascii_equivalent.
  repeat match goal with
         | |- context [if ?b then _ else _] => destruct b
         end; cbn; lia.
Qed.

(** X11: [clean_text] goes through concatenation and through [join]:
    cleaning a joined list is joining the cleaned pieces with the cleaned
    separator. *)
Theorem X11_clean_text_goes_through_join :
  forall (sep : str) (l : list str) (s t : str),
    clean_text (s ++ t) = clean_text s ++ clean_text t
    /\ clean_text (join sep l) = join (clean_text sep) (map clean_text l).
Proof.
  intros sep l s t. split; [apply clean_text_app|].
  induction l as [|x l IH]; [reflexivity|].
  destruct l as [|y l]; [reflexivity|].
  change (join sep (x :: y :: l)) with (x ++ sep ++ join sep (y :: l)).
  rewrite !clean_text_app, IH. reflexivity.
Qed.

(** X12: [clean_text] never shortens a string and at most triples its
    length. *)
Theorem X12_clean_text_length_bounds :
  forall text : str,
    (List.length text <= List.length (clean_text text)
     <= 3 * List.length text)%nat.
Proof.
  intros text. rewrite clean_text_flat_map.
  induction text as [|c s IH]; [cbn; lia|].
  cbn [flat_map]. rewrite length_app. cbn [List.length].
  pose proof (ascii_equivalent_length c). lia.
Qed.

Lemma split_plain (sep : char) (x : str) :
  ~ In sep x -> split sep x = [x].
Proof.
  induction x as [|c x IH]; intros H; [reflexivity|].
  cbn [split]. destruct (N.eqb_spec c sep) as [->|_].
  - exfalso. apply H. now left.
  - rewrite IH; [reflexivity|]. intros Hin. apply H. now right.
Qed.

Lemma split_app_plain (sep : char) (x r : str) :
  ~ In sep x -> split sep (x ++ sep :: r) = x :: split sep r.
Proof.
  induction x as [|c x IH]; intros H.
  - cbn [app split]. now rewrite N.eqb_refl.
  - cbn [app split]. destruct (N.eqb_spec c sep) as [->|_].
    + exfalso. apply H. now left.
    + rewrite IH; [reflexivity|]. intros Hin. apply H. now right.
Qed.

(** Splitting a joined list of sentences gives the sentences back, all
    but the first behind the space of the separator. *)
Lemma split_join_sentences (x : str) (l : list str) :
  Forall (fun w => ~ In 0x2E w) (x :: l) ->
  split 0x2E (join (lit ". ") (x :: l)) = x :: map (cons 0x20) l.
Proof.
  revert x. induction l as [|y l IH]; intros x H.
  - inversion H; subst. cbn [join map]. now apply split_plain.
  - inversion H as [|? ? Hx H']; subst.
    change (join (lit ". ") (x :: y :: l))
      with (x ++ 0x2E :: 0x20 :: join (lit ". ") (y :: l)).
    rewrite split_app_plain by exact Hx.
    change (split 0x2E (0x20 :: join (lit ". ") (y :: l)))
      with (match split 0x2E (join (lit ". ") (y :: l)) with
            | w :: ws => (0x20 :: w) :: ws
            | [] => [[0x20]]
            end).
    rewrite (IH y H'). reflexivity.
Qed.

Lemma resplit_sentences (l : list str) :
  Forall (fun w => w <> [] /\ ~ In 0x2E w /\ trimmed w = true) l ->
  filter truthy (map strip (split 0x2E (join (lit ". ") l))) = l.
Proof.
  intros H. destruct l as [|x l]; [reflexivity|].
  rewrite split_join_sentences
    by (eapply Forall_impl; [|exact H]; cbv beta; tauto).
  inversion H as [|? ? (Hx & _ & Htx) Hl]; subst.
  cbn [map filter]. rewrite (trimmed_strip x Htx).
  destruct x as [|c x]; [now elim Hx|]. cbn [truthy]. f_equal.
  clear H Hx Htx. induction Hl as [|y l (Hy & _ & Hty) _ IH]; [reflexivity|].
  cbn [map filter].
  change (strip (0x20 :: y)) with (strip y).
  rewrite (trimmed_strip y Hty).
  destruct y as [|b y]; [now elim Hy|]. cbn [truthy]. now rewrite IH.
Qed.

Lemma sentences_trimmed (text : str) :
  Forall (fun w => w <> [] /\ ~ In 0x2E w /\ trimmed w = true)
    (filter truthy (map strip (split 0x2E text))).
Proof.
  pose proof (sentences_plain text) as H.
  rewrite Forall_forall in *. intros w Hw.
  destruct (H w Hw) as [Hne Hdot]. repeat split; try assumption.
  apply filter_In in Hw as [Hw _].
  apply in_map_iff in Hw as (v & <- & _). apply strip_trimmed.
Qed.

(** X10: the summary is a fixed point of its own extraction: a
    description container whose text is a summary that the extractor
    returned gives that summary again. *)
Theorem X10_summary_of_a_summary :
  forall soup soup' description_elem : node,
    find "div" (Some "ao-clp-custom-tdp-itinerary__description"%string) soup'
      = Some description_elem ->
    [get_text description_elem] = parse_itinerary_description soup ->
    parse_itinerary_description soup' = parse_itinerary_description soup.
Proof.
  intros soup soup' d' Hfind Htext.
  assert (Hshape : exists l,
             Forall (fun w => w <> [] /\ ~ In 0x2E w /\ trimmed w = true) l
             /\ parse_itinerary_description soup = [join (lit ". ") l]).
  { unfold parse_itinerary_description.
    destruct (find "div" _ soup) as [d|].
    - cbv zeta. rewrite (map_filter_comm strip truthy).
      eexists. split; [apply sentences_trimmed|reflexivity].
    - exists []. split; [constructor|reflexivity]. }
  destruct Hshape as (l & Hl & Hsum).
  assert (Hclean : clean_text (get_text d') = get_text d').
  { apply clean_text_fixed. apply (summary_clean soup).
    rewrite <- Htext. now left. }
  rewrite Hsum in *. inversion Htext as [Ht].
  unfold parse_itinerary_description. rewrite Hfind. cbv zeta.
  rewrite Hclean, Ht, (map_filter_comm strip truthy).
  now rewrite resplit_sentences.
Qed.

(* ================================================================== *)
(** ** The body, read off the document *)

Lemma filter_flat_map {A B} (p : B -> bool) (f : A -> list B) (l : list A) :
  filter p (flat_map f l) = flat_map (fun a => filter p (f a)) l.
Proof.
  induction l as [|a l IH]; [reflexivity|].
  cbn [flat_map]. now rewrite filter_app, IH.
Qed.

Lemma flat_map_flat_map {A B C} (g : B -> list C) (f : A -> list B) (l : list A) :
  flat_map g (flat_map f l) = flat_map (fun a => flat_map g (f a)) l.
Proof.
  induction l as [|a l IH]; [reflexivity|].
  cbn [flat_map]. now rewrite flat_map_app, IH.
Qed.

Lemma flat_map_ext_Forall {A B} (f g : A -> list B) (l : list A) :
  Forall (fun a => f a = g a) l -> flat_map f l = flat_map g l.
Proof.
  induction 1 as [|a l Ha _ IH]; [reflexivity|].
  cbn [flat_map]. now rewrite Ha, IH.
Qed.

(** The paragraph tags among a node and its descendants are the ones the
    walk down the tree collects. *)
Lemma paragraphs_from_filter (n : node) :
  filter (selects "p" None) (n :: descendants n) = paragraphs_from n.
Proof.
  induction n as [s|name class_ contents IH] using node_deep_ind;
    [reflexivity|].
  cbn [filter selects descendants paragraphs_from].
  rewrite andb_true_r, filter_flat_map.
  rewrite (flat_map_ext_Forall _ paragraphs_from contents IH).
  destruct (String.eqb name "p"); reflexivity.
Qed.

Lemma find_all_paragraphs (n : node) :
  find_all "p" None n = paragraphs_below n.
Proof.
  unfold find_all, paragraphs_below.
  destruct n as [s|name class_ contents]; [reflexivity|].
  cbn [descendants children]. rewrite filter_flat_map.
  apply flat_map_ext_Forall, Forall_forall.
  intros c _. apply paragraphs_from_filter.
Qed.

(** The stripped strings among a node and its descendants are its pieces
    of text. *)
Lemma text_pieces_strings (n : node) :
  flat_map
    (fun d =>
       match d with
       | NavigableString s =>
           let s := strip s in if truthy s then [s] else []
       | Tag _ _ _ => []
       end)
    (n :: descendants n)
  = text_pieces n.
Proof.
  induction n as [s|name class_ contents IH] using node_deep_ind.
  - cbn [flat_map descendants text_pieces]. cbv zeta.
    destruct (strip s); reflexivity.
  - cbn [flat_map descendants text_pieces app].
    rewrite flat_map_flat_map.
    apply flat_map_ext_Forall. exact IH.
Qed.

(** The text of a tag is its pieces of text glued together. *)
Lemma get_text_glued (name : string) (class_ : list string) (contents : list node) :
  get_text (Tag name class_ contents) = glued_text (Tag name class_ contents).
Proof.
  unfold get_text, glued_text, stripped_strings.
  rewrite join_nil_concat. f_equal.
  cbn [descendants text_pieces]. rewrite flat_map_flat_map.
  apply flat_map_ext_Forall, Forall_forall.
  intros c _. apply text_pieces_strings.
Qed.

Lemma selects_tag (name : string) (class_ : option string) (n : node) :
  selects name class_ n = true ->
  exists nm cls cs, n = Tag nm cls cs.
Proof. destruct n as [s|nm cls cs]; [discriminate|]. now exists nm, cls, cs. Qed.

Lemma map_get_text_glued (l : list node) :
  Forall (fun p => selects "p" None p = true) l ->
  map get_text l = map glued_text l.
Proof.
  induction 1 as [|p l Hp _ IH]; [reflexivity|].
  cbn [map]. rewrite IH. f_equal.
  apply selects_tag in Hp as (nm & cls & cs & ->). apply get_text_glued.
Qed.

(** The body of a candidate with a content node, in the walk's terms. *)
Lemma body_text_of_glued (item content_elem : node) :
  find "div" (Some "ao-common-accordion__bottom-content"%string) item
    = Some content_elem ->
  body_text_of item = body_from_glued_paragraphs content_elem.
Proof.
  intros Hfind. unfold body_text_of, body_from_glued_paragraphs.
  rewrite Hfind. cbv zeta.
  apply find_descendant in Hfind as [_ Hsel].
  apply selects_tag in Hsel as (nm & cls & cs & ->).
  assert (HF : Forall (fun p => selects "p" None p = true)
                 (find_all "p" None (Tag nm cls cs))).
  { apply Forall_forall. intros p Hp. unfold find_all in Hp.
    now apply filter_In in Hp as [_ Hp]. }
  rewrite (map_get_text_glued _ HF), get_text_glued, find_all_paragraphs.
  destruct (paragraphs_below (Tag nm cls cs)); reflexivity.
Qed.

(** C7 (amended): the body of a candidate that has a content node is
    built from the paragraph tags found anywhere below the content node,
    in document order, not only from its children.  The text of a
    paragraph is its strings, each trimmed, the empty ones left out,
    put together with nothing between them; the texts of the paragraphs
    are joined with single spaces; a content node without any paragraph
    below it gives its own text, built the same way; the result is
    normalized.  Without a content node the body is empty. *)
Theorem C7_body_from_paragraph_descendants :
  forall (isdecimal : char -> bool) (item : node) (day_info : DayEntry),
    day_info_of isdecimal item = Some day_info ->
    match find "div" (Some "ao-common-accordion__bottom-content"%string) item with
    | Some content_elem =>
        body day_info = body_from_glued_paragraphs content_elem
    | None => body day_info = []
    end.
Proof.
  intros isdecimal item d Hd.
  apply day_info_of_inv in Hd as (_ & _ & _ & _ & -> & _).
  destruct (find "div" (Some "ao-common-accordion__bottom-content"%string) item)
    as [c|] eqn:Hfind.
  - now apply body_text_of_glued.
  - unfold body_text_of. now rewrite Hfind.
Qed.

Lemma C7_wrapped_body :
  body (mkDay [] (lit "1") (lit "Hanoi") [] (lit "Hello"))
  = body_from_glued_paragraphs content_wrapped.
Proof.
  exact (C7_body_from_paragraph_descendants ascii_decimal item_wrapped
           (mkDay [] (lit "1") (lit "Hanoi") [] (lit "Hello")) eq_refl).
Defined.

(** A paragraph cut by a tag inside it: the pieces are glued without the
    spaces that were trimmed off them, so the body is not the text of the
    paragraph trimmed as a whole. *)
Example inline_tag_glues_words :
  strip (all_text paragraph_inline) = lit "Arrive in Hue."
  /\ body_text_of item_inline = lit "ArriveinHue."
  /\ parse_itinerary_days ascii_decimal (page [item_inline])
     = [mkDay [] (lit "6") (lit "Hue") [] (lit "ArriveinHue.")].
Proof. repeat split; vm_compute; reflexivity. Qed.

(* ================================================================== *)
(** ** No statement of the extractors raises *)

Section NeverRaises.

Variable isdecimal : char -> bool.
Variable BeautifulSoup : str -> outcome node.

Lemma checked_description (soup : node) :
  Checked.parse_itinerary_description soup
  = Returns (parse_itinerary_description soup).
Proof.
  unfold Checked.parse_itinerary_description, parse_itinerary_description.
  destruct (find "div" _ soup); reflexivity.
Qed.

(** One turn of the loop: every method is called on an object that is
    there and every key read was set. *)
Lemma checked_loop_body (acc : list DayEntry) (item : node) :
  Checked.loop_body isdecimal (map as_dict acc) item
  = Returns (map as_dict (loop_body isdecimal acc item)).
Proof.
  unfold Checked.loop_body, loop_body, day_info_of, title_text_of, body_text_of.
  cbv zeta.
  destruct (find "div" (Some "js-ao-common-accordion__title"%string) item)
    as [t|]; [|reflexivity].
  cbn [Checked.truth Checked.call Checked.bind].
  assert (Htitle :
            (if Checked.truth (find "div" (Some "ao-common-accordion__arrow"%string) t)
             then Checked.bind
                    (Checked.call
                       (find "div" (Some "ao-common-accordion__arrow"%string) t)
                       get_text)
                    (fun arrow_text =>
                       Returns (strip (replace arrow_text [] (get_text t))))
             else Returns (get_text t))
            = Returns
                match find "div" (Some "ao-common-accordion__arrow"%string) t with
                | Some arrow_elem =>
                    strip (replace (get_text arrow_elem) [] (get_text t))
                | None => get_text t
                end).
  { destruct (find "div" (Some "ao-common-accordion__arrow"%string) t);
      reflexivity. }
  rewrite Htitle. clear Htitle. cbn [Checked.bind].
  destruct (re_search_day isdecimal _) as [d|]; [|reflexivity].
  cbn [Checked.truth Checked.call Checked.bind title body].
  destruct (find "div" (Some "ao-common-accordion__bottom-content"%string) item)
    as [c|].
  - cbn [Checked.truth Checked.call Checked.bind].
    destruct (truthy (find_all "p" None c));
      cbn [Checked.call Checked.bind Checked.setitem Checked.getitem String.eqb
           Ascii.eqb Bool.eqb];
      (destruct (truthy (re_sub_day_prefix isdecimal _)); [|reflexivity]);
      cbn [Checked.bind andb];
      (destruct (truthy (clean_text _)); [|reflexivity]);
      rewrite map_app; reflexivity.
  - cbn [Checked.truth Checked.call Checked.bind Checked.setitem Checked.getitem
         String.eqb Ascii.eqb Bool.eqb].
    destruct (truthy (re_sub_day_prefix isdecimal _)); reflexivity.
Qed.

Lemma checked_for_each (items : list node) (acc : list DayEntry) :
  Checked.for_each (Checked.loop_body isdecimal) items (map as_dict acc)
  = Returns (map as_dict (fold_left (loop_body isdecimal) items acc)).
Proof.
  revert acc. induction items as [|i items IH]; intros acc; [reflexivity|].
  cbn [Checked.for_each fold_left]. rewrite checked_loop_body.
  cbn [Checked.bind]. apply IH.
Qed.

Lemma checked_days (soup : node) :
  Checked.parse_itinerary_days isdecimal soup
  = Returns (map as_dict (parse_itinerary_days isdecimal soup)).
Proof.
  unfold Checked.parse_itinerary_days, parse_itinerary_days. cbv zeta.
  destruct (find "section" _ soup) as [sec|]; [|reflexivity].
  cbn [Checked.truth negb Checked.call Checked.bind].
  apply (checked_for_each _ []).
Qed.

(** C9: without the itinerary container the day extractor returns the
    empty list.  With every method call on [None] and every missing key
    counted as a failure, neither extractor fails on any document, and
    once the page is parsed [scrape_tour_info] returns its record, the
    summary holding one string.  A missing marker gives an empty part:
    no description container, the summary [""]; no title node, nothing
    for that item; no content node, an empty body and nothing for that
    item. *)
Theorem C9_missing_markers_give_empty_results :
  (forall soup : node,
     find "section" (Some "ao-clp-custom-tdp-itinerary"%string) soup = None ->
     parse_itinerary_days isdecimal soup = []
     /\ Checked.parse_itinerary_days isdecimal soup = Returns [])
  /\ (forall soup : node,
        Checked.parse_itinerary_description soup
          = Returns (parse_itinerary_description soup)
        /\ Checked.parse_itinerary_days isdecimal soup
           = Returns (map as_dict (parse_itinerary_days isdecimal soup)))
  /\ (forall (html_content : str) (soup : node),
        BeautifulSoup html_content = Returns soup ->
        Checked.scrape_tour_info isdecimal BeautifulSoup (Returns html_content)
          = Returns (parse_itinerary_description soup,
                     map as_dict (parse_itinerary_days isdecimal soup))
        /\ scrape_tour_info isdecimal BeautifulSoup (Returns html_content)
           = Returns (mkTour (parse_itinerary_description soup)
                        (parse_itinerary_days isdecimal soup))
        /\ List.length (parse_itinerary_description soup) = 1%nat)
  /\ (forall soup : node,
        find "div" (Some "ao-clp-custom-tdp-itinerary__description"%string) soup
          = None ->
        parse_itinerary_description soup = [[]])
  /\ (forall (item : node) (itinerary_items : list DayEntry),
        find "div" (Some "js-ao-common-accordion__title"%string) item = None ->
        loop_body isdecimal itinerary_items item = itinerary_items)
  /\ (forall (item : node) (itinerary_items : list DayEntry),
        find "div" (Some "ao-common-accordion__bottom-content"%string) item
          = None ->
        body_text_of item = []
        /\ loop_body isdecimal itinerary_items item = itinerary_items).
Proof.
  split; [|split; [|split; [|split; [|split]]]].
  - intros soup H. split.
    + unfold parse_itinerary_days. now rewrite H.
    + unfold Checked.parse_itinerary_days. now rewrite H.
  - intros soup. split; [apply checked_description|apply checked_days].
  - intros html soup Hsoup. split; [|split].
    + unfold Checked.scrape_tour_info. cbn [Checked.bind].
      rewrite Hsoup. cbn [Checked.bind].
      rewrite checked_description. cbn [Checked.bind].
      rewrite checked_days. reflexivity.
    + unfold scrape_tour_info. now rewrite Hsoup.
    + apply summary_length.
  - intros soup H. unfold parse_itinerary_description. now rewrite H.
  - intros item acc H. unfold loop_body, day_info_of. now rewrite H.
  - intros item acc H.
    assert (Hb : body_text_of item = []).
    { unfold body_text_of. now rewrite H. }
    split; [exact Hb|].
    rewrite loop_body_entry. unfold entry_of.
    destruct (day_info_of isdecimal item) as [d|] eqn:Hd;
      [|now rewrite app_nil_r].
    apply day_info_of_inv in Hd as (_ & _ & _ & _ & Hbody & _).
    rewrite Hbody, Hb. cbn [truthy]. rewrite andb_false_r. apply app_nil_r.
Qed.

End NeverRaises.

Lemma C9_two_days_record :
  Checked.scrape_tour_info ascii_decimal parser_sample (Returns (lit "<html>"))
  = Returns (parse_itinerary_description page_two_days,
             map as_dict (parse_itinerary_days ascii_decimal page_two_days)).
Proof.
  destruct (C9_missing_markers_give_empty_results ascii_decimal parser_sample)
    as (_ & _ & H & _).
  exact (proj1 (H (lit "<html>") page_two_days eq_refl)).
Defined.

(* ================================================================== *)
(** ** A title that begins with the day pattern *)

(** X1: let the colon be no decimal digit.  When the cleaned title of a
    candidate is [Day ], a non-empty run of decimal digits, a colon and
    a rest, the candidate's [day] is that run, whatever its length, and
    its [title] is the rest without the whitespace it starts with. *)
Theorem X1_title_beginning_with_day_pattern :
  forall (isdecimal : char -> bool) (item title_elem : node) (ds rest : str),
    isdecimal 0x3A = false ->
    find "div" (Some "js-ao-common-accordion__title"%string) item
      = Some title_elem ->
    title_text_of title_elem = lit "Day " ++ ds ++ 0x3A :: rest ->
    ds <> [] ->
    forallb isdecimal ds = true ->
    day_info_of isdecimal item
      = Some (mkDay [] ds (lstrip rest) [] (body_text_of item)).
Proof.
  intros isdecimal item title_elem ds rest Hcolon Hfind Hshape Hne Hall.
  assert (Hat : re_day_at isdecimal (title_text_of title_elem) = Some (ds, rest)).
  { rewrite Hshape.
    change (lit "Day " ++ ds ++ 0x3A :: rest)
      with (0x44 :: 0x61 :: 0x79 :: 0x20 :: (ds ++ 0x3A :: rest)).
    cbn [re_day_at]. now apply re_digits_colon_run. }
  destruct (re_day_anchored isdecimal _ _ _ Hat) as (Hs & Hsub & _).
  unfold day_info_of. rewrite Hfind. cbv zeta. now rewrite Hs, Hsub.
Qed.

Lemma X1_two_digit_day :
  day_info_of ascii_decimal item_day12
  = Some (mkDay [] (lit "12") (lit "Big day") [] (lit "Party.")).
Proof.
  exact (X1_title_beginning_with_day_pattern ascii_decimal item_day12
           (div "js-ao-common-accordion__title" [text "Day 12: Big day"])
           (lit "12") (lit " Big day")
           eq_refl eq_refl eq_refl ltac:(discriminate) eq_refl).
Defined.

(* ================================================================== *)
(** ** The properties of the entries at the sample documents *)

Lemma X2_hanoi_reserved_fields : icon entry_hanoi = [] /\ image entry_hanoi = [].
Proof.
  apply (X2_icon_and_image_stay_empty ascii_decimal page_two_days entry_hanoi).
  vm_compute. left. reflexivity.
Defined.

Lemma X3_hanoi_day :
  day entry_hanoi <> []
  /\ forallb ascii_decimal (day entry_hanoi) = true
  /\ exists itinerary_section item title_elem,
       find "section" (Some "ao-clp-custom-tdp-itinerary"%string) page_two_days
         = Some itinerary_section
       /\ In item (find_all "li" (Some "js-ao-common-accordion"%string)
                     itinerary_section)
       /\ day_info_of ascii_decimal item = Some entry_hanoi
       /\ find "div" (Some "js-ao-common-accordion__title"%string) item
          = Some title_elem
       /\ occurs_in (lit "Day " ++ day entry_hanoi ++ lit ":")
            (title_text_of title_elem).
Proof.
  apply (X3_day_is_a_run_of_digits ascii_decimal page_two_days entry_hanoi).
  vm_compute. left. reflexivity.
Defined.

Lemma X4_two_days_record_clean :
  (forall s, In s (summary record_two_days) ->
     Forall (fun c => targeted c = false) s)
  /\ (forall e, In e (itinerary record_two_days) ->
        Forall (fun c => targeted c = false) (icon e)
        /\ Forall (fun c => targeted c = false) (day e)
        /\ Forall (fun c => targeted c = false) (title e)
        /\ Forall (fun c => targeted c = false) (image e)
        /\ Forall (fun c => targeted c = false) (body e)).
Proof.
  refine (X4_record_free_of_typographic_punctuation ascii_decimal parser_sample
            (Returns (lit "<html>")) record_two_days _).
  vm_compute. reflexivity.
Defined.

Lemma X5_hanoi_title_trimmed : strip (title entry_hanoi) = title entry_hanoi.
Proof.
  apply (X5_titles_are_trimmed ascii_decimal page_two_days entry_hanoi).
  vm_compute. left. reflexivity.
Defined.

Lemma X6_hanoi_heading :
  re_search_day ascii_decimal (App.expander_label entry_hanoi)
    = Some (day entry_hanoi)
  /\ re_sub_day_prefix ascii_decimal (App.expander_label entry_hanoi)
     = title entry_hanoi.
Proof.
  apply (X6_preview_heading_reads_back ascii_decimal eq_refl page_two_days).
  vm_compute. left. reflexivity.
Defined.

Lemma X8_arrow_sample_found :
  occurs_in (get_text arrow_sample) (get_text title_with_arrow)
  /\ (List.length (replace (get_text arrow_sample) [] (get_text title_with_arrow))
      + List.length (get_text arrow_sample)
      <= List.length (get_text title_with_arrow))%nat.
Proof.
  apply (X8_arrow_text_is_always_found title_with_arrow arrow_sample).
  vm_compute. reflexivity.
Defined.


Lemma X10_sample_summary_again :
  parse_itinerary_description page_resummary
  = parse_itinerary_description page_description.
Proof.
  apply (X10_summary_of_a_summary page_description page_resummary
           description_resummary); vm_compute; reflexivity.
Defined.

(* ================================================================== *)
(** ** The session *)

(** The part of [scrape_tour_info] behind the fetch, under a name that the
    session's own [scrape_tour_info] does not hide. *)
Local Abbreviation scrape_after_fetch := scrape_tour_info (only parsing).

Section SessionFacts.

Import TourScraper.

Variable isdecimal : char -> bool.
Variable BeautifulSoup : str -> outcome node.
Variable urlparse : str -> result (str * str).
Variable urljoin : str -> str -> str.
Variable http_error_msg : Response -> str.
Variable network : nat -> str -> N -> result Response.

Lemma requests_sent_app (t u : list event) :
  requests_sent (t ++ u) = (requests_sent t + requests_sent u)%nat.
Proof. unfold requests_sent. now rewrite filter_app, length_app. Qed.

(** How a page answer ends [fetch_page]. *)
Lemma fetch_page_run (url : str) (trace : list event) :
  fetch_page http_error_msg network url trace
  = (match network (requests_sent trace) url 30 with
     | Return response =>
         if (400 <=? status_code response) && (status_code response <? 600)
         then Raise (Exception (lit "Failed to fetch page: "
                                  ++ http_error_msg response))
         else Return (text response)
     | Raise (RequestException e) =>
         Raise (Exception (lit "Failed to fetch page: " ++ e))
     | Raise (Exception e) => Raise (Exception e)
     end,
     trace ++ [sleep_uniform 1 2; session_get url 30]).
Proof.
  unfold fetch_page, try_except, bind, sleep, get, raise_for_status, ret, raise.
  rewrite requests_sent_app. cbn [requests_sent filter is_get List.length].
  rewrite Nat.add_0_r, <- app_assoc. cbn [app].
  destruct (network (requests_sent trace) url 30) as [r|[e|e]];
    [|reflexivity|reflexivity].
  destruct ((400 <=? status_code r) && (status_code r <? 600)); reflexivity.
Qed.

Lemma check_robots_txt_run (base_url : str) (trace : list event) :
  check_robots_txt urljoin network base_url trace
  = (Return true,
     trace
     ++ session_get (urljoin base_url (lit "/robots.txt")) 10
        :: match network (requests_sent trace)
                   (urljoin base_url (lit "/robots.txt")) 10 with
           | Return response =>
               if status_code response =? 200 then [sleep_uniform 1 3] else []
           | Raise _ => []
           end).
Proof.
  unfold check_robots_txt, try_except, bind, sleep, get, ret. cbv zeta.
  destruct (network (requests_sent trace) _ 10) as [r|e]; [|reflexivity].
  destruct (status_code r =? 200); [|reflexivity].
  now rewrite <- app_assoc.
Qed.


(** X14: [fetch_page] sleeps, then sends one request with a timeout of
    30.  It returns the text of the answer exactly when the status is not
    a 4xx or 5xx one; an [HTTPError] and any other [RequestException]
    come out as a plain [Exception] whose message starts with
    ["Failed to fetch page: "]; any other exception passes unchanged.  It
    never ends in a [RequestException]. *)
Theorem X14_fetch_page_outcomes :
  forall (url : str) (trace : list event),
    fetch_page http_error_msg network url trace
    = (match network (requests_sent trace) url 30 with
       | Return response =>
           if (400 <=? status_code response) && (status_code response <? 600)
           then Raise (Exception (lit "Failed to fetch page: "
                                    ++ http_error_msg response))
           else Return (text response)
       | Raise (RequestException e) =>
           Raise (Exception (lit "Failed to fetch page: " ++ e))
       | Raise (Exception e) => Raise (Exception e)
       end,
       trace ++ [sleep_uniform 1 2; session_get url 30])
    /\ forall e, fst (fetch_page http_error_msg network url trace)
                 <> Raise (RequestException e).
Proof.
  intros url trace. split; [apply fetch_page_run|].
  intros e. rewrite fetch_page_run. cbn [fst].
  destruct (network (requests_sent trace) url 30) as [r|[e'|e']];
    try discriminate.
  destruct ((400 <=? status_code r) && (status_code r <? 600)); discriminate.
Qed.

(** X15: for an address that [urlparse] accepts, [scrape_tour_info]
    sends exactly two requests, and what it returns or raises is what the
    extraction makes of the page fetch alone: the answer to the
    [robots.txt] request, or its failure, changes nothing of it. *)
Theorem X15_scrape_ignores_the_robots_answer :
  forall (url scheme netloc : str) (trace : list event),
    urlparse url = Return (scheme, netloc) ->
    let robots_url :=
      urljoin (scheme ++ lit "://" ++ netloc) (lit "/robots.txt") in
    to_outcome
      (fst (TourScraper.scrape_tour_info isdecimal BeautifulSoup urlparse urljoin
              http_error_msg network url trace))
    = scrape_after_fetch isdecimal BeautifulSoup
        (to_outcome
           (fst (fetch_page http_error_msg network url
                   (trace ++ [session_get robots_url 10]))))
    /\ requests_sent
         (snd (TourScraper.scrape_tour_info isdecimal BeautifulSoup urlparse
                 urljoin http_error_msg network url trace))
       = (requests_sent trace + 2)%nat.
Proof.
  intros url scheme netloc trace Hparse robots_url.
  set (tr1 := snd (check_robots_txt urljoin network
                     (scheme ++ lit "://" ++ netloc) trace)).
  assert (Hn : requests_sent tr1 = S (requests_sent trace)).
  { unfold tr1. rewrite check_robots_txt_run. cbn [snd]. fold robots_url.
    rewrite requests_sent_app.
    change (requests_sent (session_get robots_url 10 :: ?l))
      with (S (requests_sent l)).
    destruct (network (requests_sent trace) robots_url 10) as [r|e];
      [destruct (status_code r =? 200)|]; cbn; lia. }
  assert (Hn' : requests_sent (trace ++ [session_get robots_url 10])
                = S (requests_sent trace)).
  { rewrite requests_sent_app. cbn. lia. }
  assert (Hrun :
            TourScraper.scrape_tour_info isdecimal BeautifulSoup urlparse urljoin
              http_error_msg network url trace
            = (match fst (fetch_page http_error_msg network url tr1) with
               | Return html_content =>
                   match BeautifulSoup html_content with
                   | Returns soup =>
                       Return (mkTour (parse_itinerary_description soup)
                                 (parse_itinerary_days isdecimal soup))
                   | Raises msg => Raise (Exception msg)
                   end
               | Raise e => Raise e
               end,
               tr1 ++ [sleep_uniform 1 2; session_get url 30])).
  { unfold TourScraper.scrape_tour_info, lift, bind, ret.
    rewrite Hparse. cbn [fst snd]. unfold tr1.
    rewrite check_robots_txt_run. cbn [snd].
    rewrite !fetch_page_run. cbn [fst].
    destruct (network _ url 30) as [r|[e|e]]; try reflexivity.
    destruct ((400 <=? status_code r) && (status_code r <? 600));
      [reflexivity|].
    destruct (BeautifulSoup (text r)); reflexivity. }
  rewrite Hrun. cbn [fst snd]. split.
  - rewrite !fetch_page_run, Hn, Hn'. cbn [fst].
    destruct (network (S (requests_sent trace)) url 30) as [r|[e|e]];
      try reflexivity.
    destruct ((400 <=? status_code r) && (status_code r <? 600));
      [reflexivity|].
    cbn [to_outcome]. unfold scrape_after_fetch.
    destruct (BeautifulSoup (text r)); reflexivity.
  - rewrite requests_sent_app, Hn. cbn. lia.
Qed.

(** X16: an address that [urlparse] rejects ends [scrape_tour_info] with
    that exception before anything is sent or slept. *)
Theorem X16_bad_address_sends_nothing :
  forall (url : str) (e : exn) (trace : list event),
    urlparse url = Raise e ->
    TourScraper.scrape_tour_info isdecimal BeautifulSoup urlparse urljoin
      http_error_msg network url trace
    = (Raise e, trace).
Proof.
  intros url e trace H.
  unfold TourScraper.scrape_tour_info, lift, bind. now rewrite H.
Qed.

End SessionFacts.

Lemma X15_sample_scrape :
  TourScraper.to_outcome
    (fst (TourScraper.scrape_tour_info ascii_decimal parser_sample
            urlparse_sample urljoin_sample http_error_msg_sample
            network_sample url_sample []))
  = Returns record_two_days
  /\ TourScraper.requests_sent
       (snd (TourScraper.scrape_tour_info ascii_decimal parser_sample
               urlparse_sample urljoin_sample http_error_msg_sample
               network_sample url_sample []))
     = 2%nat.
Proof.
  destruct (X15_scrape_ignores_the_robots_answer ascii_decimal parser_sample
              urlparse_sample urljoin_sample http_error_msg_sample
              network_sample url_sample (lit "https")
              (lit "tours.flightcentre.com.au") [] eq_refl) as [H1 H2].
  split; [|exact H2].
  etransitivity; [exact H1|]. vm_compute. reflexivity.
Defined.

Lemma X16_sample_bad_address :
  TourScraper.scrape_tour_info ascii_decimal parser_sample urlparse_rejects
    urljoin_sample http_error_msg_sample network_sample url_sample []
  = (TourScraper.Raise (TourScraper.Exception (lit "Invalid IPv6 URL")), []).
Proof.
  exact (X16_bad_address_sends_nothing ascii_decimal parser_sample
           urlparse_rejects urljoin_sample http_error_msg_sample network_sample
           url_sample (TourScraper.Exception (lit "Invalid IPv6 URL")) []
           eq_refl).
Defined.

(* ================================================================== *)
(** ** What [main] reads from the result and from the address *)

Lemma split_nonempty (sep : char) (s : str) : split sep s <> [].
Proof.
  destruct s as [|c s]; [discriminate|].
  cbn [split]. destruct (c =? sep); [discriminate|].
  destruct (split sep s); discriminate.
Qed.

(** Joining what [split] gives with the separator restores the string. *)
Lemma join_split (sep : char) (s : str) : join [sep] (split sep s) = s.
Proof.
  induction s as [|c s IH]; [reflexivity|].
  cbn [split]. destruct (N.eqb_spec c sep) as [->|Hne].
  - pose proof (split_nonempty sep s) as Hs.
    destruct (split sep s) as [|w ws]; [congruence|].
    change (join [sep] ([] :: w :: ws)) with ([] ++ [sep] ++ join [sep] (w :: ws)).
    now rewrite IH.
  - pose proof (split_nonempty sep s) as Hs.
    destruct (split sep s) as [|w ws]; [congruence|].
    destruct ws as [|v ws].
    + cbn [join] in *. now rewrite IH.
    + change (join [sep] ((c :: w) :: v :: ws))
        with (c :: (w ++ [sep] ++ join [sep] (v :: ws))).
      change (join [sep] (w :: v :: ws))
        with (w ++ [sep] ++ join [sep] (v :: ws)) in IH.
      now rewrite IH.
Qed.

Lemma join_snoc (sep x : str) (l : list str) :
  l <> [] -> join sep (l ++ [x]) = join sep l ++ sep ++ x.
Proof.
  induction l as [|y l IH]; [congruence|intros _].
  destruct l as [|z l]; [reflexivity|].
  change (join sep ((y :: z :: l) ++ [x]))
    with (y ++ sep ++ join sep ((z :: l) ++ [x])).
  rewrite IH by discriminate.
  change (join sep (y :: z :: l)) with (y ++ sep ++ join sep (z :: l)).
  now rewrite <- !app_assoc.
Qed.

(** X17: on a record that [scrape_tour_info] returned, the subscript
    [result['summary'][0]] of [main] finds its element, and the
    "Summary Length" metric is the length of the summary, the empty
    summary included. *)
Theorem X17_summary_metric_is_the_length :
  forall (isdecimal : char -> bool) (BeautifulSoup : str -> outcome node)
         (fetched : outcome str) (record : TourRecord),
    scrape_tour_info isdecimal BeautifulSoup fetched = Returns record ->
    exists s,
      summary record = [s]
      /\ App.item (summary record) 0 = Some s
      /\ App.summary_length record = Some (List.length s).
Proof.
  intros isdecimal BeautifulSoup fetched record H.
  unfold scrape_tour_info in H.
  destruct fetched as [html|msg]; [|discriminate].
  destruct (BeautifulSoup html) as [soup|msg]; [|discriminate].
  cbv zeta in H. inversion H; subst record; clear H.
  pose proof (summary_length soup) as Hlen.
  unfold App.summary_length. cbn [summary].
  destruct (parse_itinerary_description soup) as [|s [|t l]];
    try discriminate.
  exists s. split; [reflexivity|]. split; [reflexivity|].
  cbn [App.item nth_error]. destruct s; reflexivity.
Qed.

(** X18: the name of the download is always built ([url.split('/')[-1]]
    finds its element): it is ["tour_data_"], the part of the address
    behind its last slash, and [".json"]; that part holds no slash, and
    the address is that part alone or something ending in a slash
    followed by that part. *)
Theorem X18_file_name_from_last_segment :
  forall url : str,
    exists stem dir,
      App.file_name url = Some (lit "tour_data_" ++ stem ++ lit ".json")
      /\ ~ In 0x2F stem
      /\ url = dir ++ stem
      /\ (dir = [] \/ exists d, dir = d ++ [0x2F]).
Proof.
  intros url. unfold App.file_name, App.last_item.
  pose proof (join_split 0x2F url) as Hjoin.
  pose proof (split_no_sep 0x2F url) as Hsep.
  destruct (rev (split 0x2F url)) as [|stem r] eqn:Hrev.
  - apply (f_equal (@rev str)) in Hrev. rewrite rev_involutive in Hrev.
    now apply split_nonempty in Hrev.
  - apply (f_equal (@rev str)) in Hrev. rewrite rev_involutive in Hrev.
    cbn [rev] in Hrev. rewrite Hrev in Hjoin, Hsep.
    apply Forall_app in Hsep as [_ Hsep]. apply Forall_inv in Hsep.
    destruct (rev r) as [|y l] eqn:Hr.
    + exists stem, []. cbn [hd_error app join] in *.
      repeat split; auto.
    + exists stem, (join [0x2F] (y :: l) ++ [0x2F]).
      rewrite join_snoc in Hjoin by discriminate.
      cbn [hd_error]. repeat split; auto.
      * rewrite <- Hjoin. now rewrite <- !app_assoc.
      * right. now exists (join [0x2F] (y :: l)).
Qed.

Lemma X17_two_days_metric :
  exists s,
    summary record_two_days = [s]
    /\ App.item (summary record_two_days) 0 = Some s
    /\ App.summary_length record_two_days = Some (List.length s).
Proof.
  refine (X17_summary_metric_is_the_length ascii_decimal parser_sample
            (Returns (lit "<html>")) record_two_days _).
  vm_compute. reflexivity.
Defined.
